(** * Market Minds: the forecast-and-backtest script of [app.py]

    A shallow embedding of the Streamlit script: the data engine
    ([load_data] with its two rolling means), the header block, the
    forecast tab and the backtest tab, followed by the properties the
    specification states about them.

    Modelling conventions.
    - A column of [float64] values is a list of [float64], where a value is
      a rational, one of the two infinities or NaN.  Arithmetic on finite
      values is exact (rounding is abstracted away, and the two signed
      zeros are identified); the special values follow IEEE 754, which is
      what NumPy and pandas compute with.
    - A timestamp of the daily [Date]/[ds] column is a day number in [Z].
    - The script's effects (Streamlit output, calls into Prophet) are
      events appended to a trace; a Python exception ends the run.
    - Prophet's estimator is external: whether [fit] accepts a data frame
      and which [yhat] a fitted model predicts are parameters. *)

From Stdlib Require Import String.
From Stdlib Require Import ZArith QArith Qabs List Bool Lia Lqa.
From Stdlib Require Import Sorting.Sorted.
Import ListNotations.

Local Open Scope Z_scope.

(** ** float64 values *)

Inductive float64 : Type :=
| Num (q : Q)
| PInf
| NInf
| NaN.

Declare Scope f64_scope.
Delimit Scope f64_scope with f64.
Bind Scope f64_scope with float64.

Module F64.

Definition isnan (x : float64) : bool :=
  match x with NaN => true | _ => false end.

Definition notnull (x : float64) : bool := negb (isnan x).

Definition isinf (x : float64) : bool :=
  match x with PInf | NInf => true | _ => false end.

Definition isfinite (x : float64) : bool :=
  match x with Num _ => true | _ => false end.

(** Sign of a value that is not NaN. *)
Definition sign (x : float64) : comparison :=
  match x with
  | Num q => (q ?= 0)%Q
  | PInf => Gt
  | NInf => Lt
  | NaN => Eq
  end.

Definition neg (x : float64) : float64 :=
  match x with
  | Num q => Num (- q)
  | PInf => NInf
  | NInf => PInf
  | NaN => NaN
  end.

Definition abs (x : float64) : float64 :=
  match x with
  | Num q => Num (Qabs q)
  | PInf | NInf => PInf
  | NaN => NaN
  end.

Definition add (x y : float64) : float64 :=
  match x, y with
  | NaN, _ | _, NaN => NaN
  | Num a, Num b => Num (a + b)
  | PInf, NInf | NInf, PInf => NaN
  | PInf, _ | _, PInf => PInf
  | NInf, _ | _, NInf => NInf
  end.

Definition sub (x y : float64) : float64 := add x (neg y).

(** An infinity with the sign of the product of two signs; a zero
    factor makes the product NaN. *)
Definition signed_inf (s t : comparison) : float64 :=
  match s, t with
  | Eq, _ | _, Eq => NaN
  | Gt, Gt | Lt, Lt => PInf
  | _, _ => NInf
  end.

Definition mul (x y : float64) : float64 :=
  match x, y with
  | NaN, _ | _, NaN => NaN
  | Num a, Num b => Num (a * b)
  | _, _ => signed_inf (sign x) (sign y)
  end.

(** Division as NumPy does it: a finite value over zero is an infinity
    with the sign of the numerator, and 0/0 is NaN; no exception. *)
Definition div (x y : float64) : float64 :=
  match x, y with
  | NaN, _ | _, NaN => NaN
  | Num a, Num b =>
      match (b ?= 0)%Q with
      | Eq => match (a ?= 0)%Q with
              | Eq => NaN
              | Gt => PInf
              | Lt => NInf
              end
      | _ => Num (a / b)
      end
  | Num _, _ => Num 0
  | _, Num b =>
      match (b ?= 0)%Q with
      | Lt => neg x
      | _ => x
      end
  | _, _ => NaN
  end.

(** [x < y]; false as soon as one side is NaN. *)
Definition ltb (x y : float64) : bool :=
  match x, y with
  | NaN, _ | _, NaN => false
  | Num a, Num b => match (a ?= b)%Q with Lt => true | _ => false end
  | NInf, NInf => false
  | NInf, _ => true
  | PInf, _ => false
  | Num _, PInf => true
  | Num _, NInf => false
  end.

Definition gtb (x y : float64) : bool := ltb y x.

(** [x >= y]; false as soon as one side is NaN. *)
Definition geb (x y : float64) : bool :=
  match x, y with
  | NaN, _ | _, NaN => false
  | _, _ => negb (ltb x y)
  end.

(** Equality of values: rationals are compared by [Qeq]. *)
Definition eqv (x y : float64) : Prop :=
  match x, y with
  | Num a, Num b => (a == b)%Q
  | PInf, PInf | NInf, NInf | NaN, NaN => True
  | _, _ => False
  end.

Definition of_nat (n : nat) : float64 := Num (inject_Z (Z.of_nat n)).

End F64.

Infix "+" := F64.add : f64_scope.
Infix "-" := F64.sub : f64_scope.
Infix "*" := F64.mul : f64_scope.
Infix "/" := F64.div : f64_scope.
Infix "<?" := F64.ltb : f64_scope.
Infix ">?" := F64.gtb : f64_scope.
Infix "==" := F64.eqv : f64_scope.

(** ** Data frames

    A frame is the list of its rows, in index order. *)

(** One daily bar as [yf.download] returns it after [reset_index]. *)
Record Bar : Type := mkBar {
  Date : Z;
  Open : float64;
  High : float64;
  Low : float64;
  Close : float64;
  Volume : Z
}.

(** A row of [data]: the bar and the two moving-average columns. *)
Record Row : Type := mkRow {
  bar : Bar;
  SMA_50 : float64;
  SMA_200 : float64
}.

(** A row of [df_train]: columns [ds] and [y]. *)
Record TimePoint : Type := mkPoint {
  tp_ds : Z;
  tp_y : float64
}.

(** A row of [forecast[['ds', 'yhat']]]. *)
Record Prediction : Type := mkPred {
  fc_ds : Z;
  fc_yhat : float64
}.

(** A row of [combined]: columns [ds], [y] and [yhat]. *)
Record Aligned : Type := mkAligned {
  cb_ds : Z;
  cb_y : float64;
  cb_yhat : float64
}.

Module Pandas.

(** [Series.sum] of a column without NaN. *)
Definition sum (s : list float64) : float64 :=
  fold_right F64.add (Num 0) s.

(** [Series.mean()]: NaN entries are skipped ([skipna=True]); the mean
    of no observation is NaN. *)
Definition mean (s : list float64) : float64 :=
  let obs := filter F64.notnull s in
  match obs with
  | [] => NaN
  | _ => (sum obs / F64.of_nat (length obs))%f64
  end.

(** [Series.max()] and [Series.min()], NaN entries skipped. *)
Definition max (s : list float64) : float64 :=
  match filter F64.notnull s with
  | [] => NaN
  | x :: l => fold_left (fun a b => if (a <? b)%f64 then b else a) l x
  end.

Definition min (s : list float64) : float64 :=
  match filter F64.notnull s with
  | [] => NaN
  | x :: l => fold_left (fun a b => if (b <? a)%f64 then b else a) l x
  end.

(** The rows a trailing window of size [w] covers at index [i]:
    indices [max 0 (i-w+1) .. i]. *)
Definition rolling_window {A : Type} (w : nat) (s : list A) (i : nat) : list A :=
  firstn (Nat.min w (S i)) (skipn (S i - w) s).

(** [Series.rolling(window=w).mean()] with the default
    [min_periods = w]: the mean of the window when it holds [w]
    observations, NaN otherwise.  Rolling aggregations read an infinite
    entry as a missing one. *)
Definition rolling_mean (w : nat) (s : list float64) : list float64 :=
  map (fun i =>
         let obs := filter F64.isfinite (rolling_window w s i) in
         if (w <=? length obs)%nat then mean obs else NaN)
      (seq 0 (length s)).

(** [df.empty] *)
Definition empty {A : Type} (df : list A) : bool :=
  match df with [] => true | _ => false end.

(** [df.iloc[i]] for an integer [i], negative indices counting from the
    end; [None] is Python's IndexError. *)
Definition iloc {A : Type} (df : list A) (i : Z) : option A :=
  let n := Z.of_nat (length df) in
  if (0 <=? i) && (i <? n) then nth_error df (Z.to_nat i)
  else if (- n <=? i) && (i <? 0) then nth_error df (Z.to_nat (n + i))
  else None.

(** The position a slice bound [k] denotes in a frame of [n] rows. *)
Definition slice_bound (n k : Z) : nat :=
  Z.to_nat (if k <? 0 then Z.max 0 (n + k) else Z.min k n).

(** [df.iloc[:k]] *)
Definition iloc_until {A : Type} (k : Z) (df : list A) : list A :=
  firstn (slice_bound (Z.of_nat (length df)) k) df.

(** [df.iloc[k:]] *)
Definition iloc_from {A : Type} (k : Z) (df : list A) : list A :=
  skipn (slice_bound (Z.of_nat (length df)) k) df.

(** [pd.merge(left, right, on='ds')]: the inner join, in the order of
    the left keys. *)
Definition merge (left : list TimePoint) (right : list Prediction) : list Aligned :=
  flat_map
    (fun l =>
       map (fun r => mkAligned (tp_ds l) (tp_y l) (fc_yhat r))
           (filter (fun r => fc_ds r =? tp_ds l) right))
    left.

(** Insertion of a date into an ascending column. *)
Fixpoint insert_date (d : Z) (l : list Z) : list Z :=
  match l with
  | [] => [d]
  | x :: l' => if d <=? x then d :: l else x :: insert_date d l'
  end.

(** [Series.sort_values()] on a date column. *)
Definition sort_values (l : list Z) : list Z :=
  fold_right insert_date [] l.

(** [Series.unique()] followed by [sort_values()]. *)
Definition unique_sorted (l : list Z) : list Z :=
  sort_values (nodup Z.eq_dec l).

(** [Series.max()] of a date column; [None] on an empty one. *)
Definition max_date (l : list Z) : option Z :=
  match l with
  | [] => None
  | x :: l' => Some (fold_left Z.max l' x)
  end.

End Pandas.

(** ** Effects of the script *)

Inductive SeasonalityMode : Type := additive | multiplicative.

(** The two sidebar settings handed to [Prophet(...)]. *)
Record Hyper : Type := mkHyper {
  changepoint_prior_scale : Q;
  seasonality_mode : SeasonalityMode
}.

(** What a run does that is visible outside it: Streamlit output and the
    calls into Prophet. *)
Inductive event : Type :=
| st_warning (msg : string)
| st_error (msg : string)
| st_success (msg : string)
| st_info (pred_price : float64) (trend : string)
| st_metric (label : string) (value : float64)
| st_markdown_price (current_price delta pct_change : float64)
| st_plotly_chart (figure : string)
| prophet_fit (h : Hyper) (df : list TimePoint)
| prophet_predict (h : Hyper) (df : list TimePoint) (future : list Z).

Inductive exn : Type := IndexError | ValueError.

(** A block of the script: the events it emitted, and either the
    exception that ended it or its value. *)
Definition M (A : Type) : Type := (list event * (exn + A))%type.

Definition ret {A : Type} (a : A) : M A := ([], inr a).

Definition raise {A : Type} (e : exn) : M A := ([], inl e).

Definition emit (ev : event) : M unit := ([ev], inr tt).

Definition bind {A B : Type} (c : M A) (k : A -> M B) : M B :=
  match c with
  | (t, inl e) => (t, inl e)
  | (t, inr a) => let (t', r) := k a in (t ++ t', r)
  end.

Notation "x <- c ;; k" := (bind c (fun x => k))
  (at level 61, c at next level, right associativity).
Notation "c ;; k" := (bind c (fun _ => k))
  (at level 61, right associativity).

Definition trace {A : Type} (c : M A) : list event := fst c.
Definition outcome {A : Type} (c : M A) : exn + A := snd c.

(** [df.iloc[i]] as a step of the script. *)
Definition iloc {A : Type} (df : list A) (i : Z) : M A :=
  match Pandas.iloc df i with
  | Some r => ret r
  | None => raise IndexError
  end.

Definition is_fit (ev : event) : bool :=
  match ev with prophet_fit _ _ => true | _ => false end.

(** No event of the trace is a call of [fit]. *)
Definition no_fit (t : list event) : Prop := forallb (fun ev => negb (is_fit ev)) t = true.

(** ** The data engine *)

(** [load_data]: the argument is what [yf.download] and [reset_index]
    produced, [None] when anything in the [try] block raised. *)
Definition load_data (fetched : option (list Bar)) : list Row :=
  match fetched with
  | None => []
  | Some bars =>
      let close := map Close bars in
      map (fun r => mkRow (fst r) (fst (snd r)) (snd (snd r)))
          (combine bars
             (combine (Pandas.rolling_mean 50 close) (Pandas.rolling_mean 200 close)))
  end.

(** [data[['Date', 'Close']].rename(columns={"Date": "ds", "Close": "y"})] *)
Definition df_train_of (data : list Row) : list TimePoint :=
  map (fun r => mkPoint (Date (bar r)) (Close (bar r))) data.

(** ** Scoring of the backtest *)

(** [combined['AbsError'] = (combined['y'] - combined['yhat']).abs()] *)
Definition AbsError (combined : list Aligned) : list float64 :=
  map (fun r => F64.abs (cb_y r - cb_yhat r)%f64) combined.

(** Element-wise quotient of two columns of one frame. *)
Definition series_div (a b : list float64) : list float64 :=
  map (fun p => (fst p / snd p)%f64) (combine a b).

(** [mae = combined['AbsError'].mean()] *)
Definition mae_of (combined : list Aligned) : float64 :=
  Pandas.mean (AbsError combined).

(** [mape = (combined['AbsError'] / combined['y']).mean() * 100] *)
Definition mape_of (combined : list Aligned) : float64 :=
  (Pandas.mean (series_div (AbsError combined) (map cb_y combined)) * Num 100)%f64.

Inductive Tier : Type := Excellent | Good | Poor.

(** The [if mape < 5 ... elif mape < 10 ... else] branch. *)
Definition accuracy_tier (mape : float64) : Tier :=
  if (mape <? Num 5)%f64 then Excellent
  else if (mape <? Num 10)%f64 then Good
  else Poor.

Definition tier_event (t : Tier) : event :=
  match t with
  | Excellent => st_success "Excellent Accuracy"
  | Good => st_warning "Good Accuracy"
  | Poor => st_error "Poor Accuracy"
  end.

(** What the backtest tab ends with: the message of its guard, or the
    scores it displayed. *)
Inductive Backtest : Type :=
| NotEnoughData
| Report (mae mape : float64) (tier : Tier).

(** The warning of the empty branch (the ticker it quotes is left out). *)
Definition could_not_validate : string :=
  "Could not validate ticker. Please try again.".

Definition not_enough_data : string :=
  "Not enough data to run backtest. Increase training history.".

(** A fitted Prophet object: its settings and the frame it was fitted on. *)
Record Fitted : Type := mkFitted {
  params : Hyper;
  history : list TimePoint
}.

(** ** The script *)

Section Script.

(** The external estimator: whether [Prophet.fit] accepts a frame (it
    raises otherwise), and the point forecast at a date of a model
    fitted on a frame. *)
Variable fit_accepts : Hyper -> list TimePoint -> bool.
Variable yhat_of : Hyper -> list TimePoint -> Z -> float64.

(** [m = Prophet(...); m.fit(df)] *)
Definition Prophet_fit (h : Hyper) (df : list TimePoint) : M Fitted :=
  emit (prophet_fit h df) ;;
  if fit_accepts h df then ret (mkFitted h df) else raise ValueError.

(** [m.make_future_dataframe(periods)]: the dates of the history,
    unique and ascending, followed by the next [periods] calendar days
    after the last of them. *)
Definition make_future_dataframe (m : Fitted) (periods : nat) : M (list Z) :=
  let history_dates := Pandas.unique_sorted (map tp_ds (history m)) in
  match Pandas.max_date history_dates with
  | None => raise ValueError
  | Some last_date =>
      ret (history_dates ++ map (fun k => last_date + Z.of_nat k) (seq 1 periods))
  end.

(** [m.predict(future)]: one row per requested date, ascending. *)
Definition predict (m : Fitted) (future : list Z) : M (list Prediction) :=
  emit (prophet_predict (params m) (history m) future) ;;
  match future with
  | [] => raise ValueError
  | _ => ret (map (fun d => mkPred d (yhat_of (params m) (history m) d))
                  (Pandas.sort_values future))
  end.

(** The header block: last close, previous close and their change. *)
Definition header (data : list Row) : M (float64 * float64 * float64) :=
  last <- iloc data (-1) ;;
  let current_price := Close (bar last) in
  prev <- iloc data (-2) ;;
  let prev_price := Close (bar prev) in
  let delta := (current_price - prev_price)%f64 in
  let pct_change := ((delta / prev_price) * Num 100)%f64 in
  emit (st_markdown_price current_price delta pct_change) ;;
  ret (current_price, delta, pct_change).

(** The four KPI cards. *)
Definition kpi_grid (data : list Row) : M unit :=
  emit (st_metric "Highest (Period)" (Pandas.max (map (fun r => High (bar r)) data))) ;;
  emit (st_metric "Lowest (Period)" (Pandas.min (map (fun r => Low (bar r)) data))) ;;
  last <- iloc data (-1) ;;
  emit (st_metric "Volume (24h)" (Num (inject_Z (Volume (bar last))))) ;;
  last <- iloc data (-1) ;;
  emit (st_metric "50-Day SMA" (SMA_50 last)).

(** Tab 1: fit on the whole history and predict [forecast_days] ahead. *)
Definition tab_forecast (h : Hyper) (forecast_days : nat)
    (df_train : list TimePoint) (current_price : float64) : M (list Prediction) :=
  m <- Prophet_fit h df_train ;;
  future <- make_future_dataframe m forecast_days ;;
  forecast <- predict m future ;;
  emit (st_plotly_chart "forecast") ;;
  last <- iloc forecast (-1) ;;
  let pred_price := fc_yhat last in
  let trend := if (pred_price >? current_price)%f64 then "Bullish"%string else "Bearish"%string in
  emit (st_info pred_price trend) ;;
  ret forecast.

(** [train_len = len(df_train) - forecast_days] *)
Definition train_len (df_train : list TimePoint) (forecast_days : nat) : Z :=
  Z.of_nat (length df_train) - Z.of_nat forecast_days.

Definition train_set (df_train : list TimePoint) (forecast_days : nat) : list TimePoint :=
  Pandas.iloc_until (train_len df_train forecast_days) df_train.

Definition test_set (df_train : list TimePoint) (forecast_days : nat) : list TimePoint :=
  Pandas.iloc_from (train_len df_train forecast_days) df_train.

(** The frame [combined] of tab 2: fit on the training rows, predict
    [forecast_days] ahead and join the predictions with the hidden rows. *)
Definition backtest_combined (h : Hyper) (forecast_days : nat)
    (df_train : list TimePoint) : M (list Aligned) :=
  m_bt <- Prophet_fit h (train_set df_train forecast_days) ;;
  future_bt <- make_future_dataframe m_bt forecast_days ;;
  forecast_bt <- predict m_bt future_bt ;;
  ret (Pandas.merge (test_set df_train forecast_days) forecast_bt).

(** The metric cards, the tier message and the chart of tab 2. *)
Definition show_scores (combined : list Aligned) : M Backtest :=
  let mae := mae_of combined in
  let mape := mape_of combined in
  emit (st_metric "MAE (Avg Error)" mae) ;;
  emit (st_metric "MAPE (Error %)" mape) ;;
  emit (tier_event (accuracy_tier mape)) ;;
  emit (st_plotly_chart "backtest") ;;
  ret (Report mae mape (accuracy_tier mape)).

(** Tab 2: hide the last [forecast_days] rows, fit on the rest, and
    score the predictions against the hidden rows. *)
Definition tab_backtest (h : Hyper) (forecast_days : nat)
    (df_train : list TimePoint) : M Backtest :=
  if train_len df_train forecast_days <? 30 then
    emit (st_error not_enough_data) ;;
    ret NotEnoughData
  else
    combined <- backtest_combined h forecast_days df_train ;;
    show_scores combined.

(** The main block, from [data = load_data(...)] to the last chart. *)
Definition app (fetched : option (list Bar)) (h : Hyper) (forecast_days : nat) : M unit :=
  let data := load_data fetched in
  if Pandas.empty data then
    emit (st_warning could_not_validate)
  else
    price <- header data ;;
    let current_price := fst (fst price) in
    kpi_grid data ;;
    let df_train := df_train_of data in
    tab_forecast h forecast_days df_train current_price ;;
    tab_backtest h forecast_days df_train ;;
    emit (st_plotly_chart "candlestick").

End Script.

(** ** Arithmetic means over the rationals

    The means the specification speaks of, over exact values; the
    theorems below compare the script's columns with them. *)

Definition Qsum (l : list Q) : Q := fold_right Qplus 0%Q l.

Definition arithmetic_mean (l : list Q) : Q :=
  (Qsum l / inject_Z (Z.of_nat (length l)))%Q.

(** An aligned pair whose actual and predicted values are numbers. *)
Record RealPair : Type := mkReal {
  rp_ds : Z;
  rp_y : Q;
  rp_yhat : Q
}.

Definition aligned_of (p : RealPair) : Aligned :=
  mkAligned (rp_ds p) (Num (rp_y p)) (Num (rp_yhat p)).

(** [|y - yhat|] *)
Definition absolute_error (p : RealPair) : Q := Qabs (rp_y p - rp_yhat p).

(** The arithmetic mean of the absolute errors. *)
Definition mean_absolute_error (pairs : list RealPair) : Q :=
  arithmetic_mean (map absolute_error pairs).

(** The arithmetic mean of [absolute_error / |y|], as a percentage. *)
Definition mean_absolute_percentage_error (pairs : list RealPair) : Q :=
  (arithmetic_mean (map (fun p => absolute_error p / Qabs (rp_y p)) pairs) * 100)%Q.

(** The same mean with the divisor the script uses: [y], not [|y|]. *)
Definition mean_signed_percentage_error (pairs : list RealPair) : Q :=
  (arithmetic_mean (map (fun p => absolute_error p / rp_y p) pairs) * 100)%Q.

(** What one pair adds to the column the MAPE averages. *)
Definition percentage_term (p : RealPair) : float64 :=
  (Num (absolute_error p) / Num (rp_y p))%f64.

(** A pair whose actual and predicted values are both zero. *)
Definition both_zero (p : RealPair) : bool :=
  Qeq_bool (rp_y p) 0 && Qeq_bool (rp_yhat p) 0.

(** A value that is a number or plus infinity. *)
Definition number_or_pinf (x : float64) : Prop :=
  match x with
  | Num _ | PInf => True
  | NInf | NaN => False
  end.

(** ** A stand-in estimator and sample series

    Used to run the script on concrete inputs: [fit] wants two rows with
    a value, and every prediction is the last value of the history. *)
Module Stub.

Definition fit_accepts (h : Hyper) (df : list TimePoint) : bool :=
  (2 <=? length (filter (fun p => F64.notnull (tp_y p)) df))%nat.

Definition yhat_of (h : Hyper) (df : list TimePoint) (d : Z) : float64 :=
  match rev df with
  | p :: _ => tp_y p
  | [] => NaN
  end.

(** The sidebar's defaults. *)
Definition defaults : Hyper := mkHyper 0.05 multiplicative.

Definition flat_bar (c : float64) (d : Z) : Bar := mkBar d c c c c 1000.

(** [n] consecutive days from day [start], all at the value [c]. *)
Definition daily (start : Z) (n : nat) (c : float64) : list TimePoint :=
  map (fun k => mkPoint (start + Z.of_nat k) c) (seq 0 n).

(** 59 and 60 days at 100: with a horizon of 30 they leave 29 and 30
    training rows. *)
Definition days_59 : list TimePoint := daily 0 59 (Num 100).
Definition days_60 : list TimePoint := daily 0 60 (Num 100).

(** 30 days at 100, then 30 more that start long after the horizon. *)
Definition gap_series : list TimePoint :=
  daily 0 30 (Num 100) ++ daily 1000 30 (Num 100).

(** 60 days at 100, except for a close of zero on day 30. *)
Definition zero_day_series : list TimePoint :=
  daily 0 30 (Num 100) ++ mkPoint 30 (Num 0) :: daily 31 29 (Num 100).

(** 35 days at 50, then, after a halt of more than a year, 30 days at 55. *)
Definition halted_series : list TimePoint :=
  daily 0 35 (Num 50) ++ daily 500 30 (Num 55).

(** Two bars, the second without a close. *)
Definition nan_bars : list Bar := [flat_bar (Num 100) 0; flat_bar NaN 1].

Definition one_bar : list Bar := [flat_bar (Num 100) 0].

(** Actual 100 predicted 90, and actual 50 predicted 55. *)
Definition two_pairs : list RealPair := [mkReal 0 100 90; mkReal 1 50 55].

(** A negative actual value: actual -2, predicted -1. *)
Definition negative_pair : list RealPair := [mkReal 0 (-2) (-1)].

(** Actual 0 predicted 1, and actual 2 predicted 1. *)
Definition zero_pairs : list RealPair := [mkReal 0 0 1; mkReal 1 2 1].

Definition five_days : list TimePoint :=
  [mkPoint 10 (Num 100); mkPoint 11 (Num 101); mkPoint 14 (Num 99);
   mkPoint 15 (Num 102); mkPoint 16 (Num 103)].

End Stub.

(** ** Further parts of the script *)

(** The colour of the change under the price:
    ["#00FFA3" if delta > 0 else "#FF4B4B"]. *)
Definition color_hex (delta : float64) : string :=
  if (delta >? Num 0)%f64 then "#00FFA3"%string else "#FF4B4B"%string.

(** The dates a model fitted on [df] is asked to predict: those of [df],
    then the [forecast_days] calendar days after the last of them. *)
Definition horizon_dates (df : list TimePoint) (forecast_days : nat) : list Z :=
  map tp_ds df
    ++ map (fun k => last (map tp_ds df) 0 + Z.of_nat k) (seq 1 forecast_days).

(** The hidden rows that lie within [forecast_days] calendar days of the
    last training row, each with the prediction of a model fitted on the
    training rows. *)
Definition scored_rows (yhat_of : Hyper -> list TimePoint -> Z -> float64)
    (h : Hyper) (forecast_days : nat) (df : list TimePoint) : list Aligned :=
  let train := train_set df forecast_days in
  let last_train := last (map tp_ds train) 0 in
  map (fun p => mkAligned (tp_ds p) (tp_y p) (yhat_of h train (tp_ds p)))
      (filter (fun p => tp_ds p <=? last_train + Z.of_nat forecast_days)
              (test_set df forecast_days)).

(** Whether a column of dates is strictly ascending. *)
Fixpoint ascending (l : list Z) : bool :=
  match l with
  | [] => true
  | x :: t =>
      match t with
      | [] => true
      | y :: _ => (x <? y) && ascending t
      end
  end.

(** Sample series for the properties of whole runs. *)
Module Samples.

(** The date of the [k]-th trading day from [start], five a week. *)
Definition trading_day (start : Z) (k : nat) : Z :=
start + Z.of_nat k + 2 * (Z.of_nat k / 5).

(** [n] trading days from [start], closing at 100, 101, ... *)
Definition trading_days (start : Z) (n : nat) : list TimePoint :=
map (fun k => mkPoint (trading_day start k) (Num (inject_Z (100 + Z.of_nat k))))
    (seq 0 n).

(** 30 consecutive days, then 30 trading days with their weekends. *)
Definition market_series : list TimePoint :=
Stub.daily 0 30 (Num 100) ++ trading_days 30 30.

(** Bars on consecutive days from day 0 with the given closes. *)
Definition bars_of (closes : list float64) : list Bar :=
map (fun kc => Stub.flat_bar (snd kc) (Z.of_nat (fst kc)))
    (combine (seq 0 (length closes)) closes).

(** Three bars closing at 100, 102 and 101. *)
Definition three_bars : list Bar := bars_of [Num 100; Num 102; Num 101].

(** 60 bars on consecutive days, all closing at 100. *)
Definition sixty_bars : list Bar := bars_of (repeat (Num 100) 60).

(** The 60 days of [Stub.days_60] with other values on the last 30. *)
Definition other_hidden : list TimePoint :=
Stub.daily 0 30 (Num 100) ++ Stub.daily 30 30 (Num 7).

(** Predictions that are exact: actual 5 predicted 5, actual 7 predicted 7. *)
Definition exact_pairs : list RealPair := [mkReal 0 5 5; mkReal 1 7 7].

(** An estimator that refuses every frame. *)
Definition refuse_all (h : Hyper) (df : list TimePoint) : bool := false.

(** 52 bars closing at 1, 2, ..., 52. *)
Definition rising_bars : list Bar :=
bars_of (map (fun k => Num (inject_Z (Z.of_nat k))) (seq 1 52)).

End Samples.

(** * Properties *)

(** ** Indexing and slicing *)

Section Indexing.

Context {A : Type}.
Implicit Types df : list A.

Lemma iloc_negative df (k : Z) :
  0 < k ->
  Pandas.iloc df (- k) =
    if k <=? Z.of_nat (length df)
    then nth_error df (Z.to_nat (Z.of_nat (length df) - k))
    else None.
Proof.
  intros Hk. unfold Pandas.iloc.
  replace (0 <=? - k) with false by (symmetry; apply Z.leb_gt; lia).
  cbn [andb].
  replace (- k <? 0) with true by (symmetry; apply Z.ltb_lt; lia).
  rewrite andb_true_r.
  destruct (k <=? Z.of_nat (length df)) eqn:E.
  - replace (- Z.of_nat (length df) <=? - k) with true
      by (symmetry; apply Z.leb_le; apply Z.leb_le in E; lia).
    f_equal; f_equal; lia.
  - replace (- Z.of_nat (length df) <=? - k) with false
      by (symmetry; apply Z.leb_gt; apply Z.leb_gt in E; lia).
    reflexivity.
Qed.

Lemma iloc_negative_some df (k : Z) :
  0 < k <= Z.of_nat (length df) ->
  exists r, Pandas.iloc df (- k) = Some r.
Proof.
  intros [Hk Hn]. rewrite iloc_negative by assumption.
  replace (k <=? Z.of_nat (length df)) with true by (symmetry; apply Z.leb_le; lia).
  destruct (nth_error df (Z.to_nat (Z.of_nat (length df) - k))) as [r|] eqn:E.
  - now exists r.
  - apply nth_error_None in E. lia.
Qed.

Lemma iloc_negative_none df (k : Z) :
  Z.of_nat (length df) < k -> 0 < k ->
  Pandas.iloc df (- k) = None.
Proof.
  intros Hn Hk. rewrite iloc_negative by assumption.
  replace (k <=? Z.of_nat (length df)) with false by (symmetry; apply Z.leb_gt; lia).
  reflexivity.
Qed.

Lemma slice_bound_split (n : nat) (k : Z) :
  0 <= k <= Z.of_nat n ->
  Pandas.slice_bound (Z.of_nat n) k = Z.to_nat k.
Proof.
  intros [H0 Hn]. unfold Pandas.slice_bound.
  replace (k <? 0) with false by (symmetry; apply Z.ltb_ge; lia).
  f_equal. lia.
Qed.

(** The two slices of a frame at one bound cut it in two. *)
Lemma iloc_until_from df (k : Z) :
  Pandas.iloc_until k df ++ Pandas.iloc_from k df = df.
Proof. apply firstn_skipn. Qed.

End Indexing.

(** ** Steps of the script *)

Lemma bind_ret_l {A B : Type} (a : A) (k : A -> M B) : bind (ret a) k = k a.
Proof. unfold bind, ret. destruct (k a). reflexivity. Qed.

Lemma outcome_bind_emit {B : Type} (ev : event) (k : unit -> M B) :
  outcome (bind (emit ev) k) = outcome (k tt).
Proof. unfold bind, emit, outcome. destruct (k tt). reflexivity. Qed.

Lemma trace_bind {A B : Type} (c : M A) (k : A -> M B) :
  trace (bind c k) =
    trace c ++ match outcome c with inl _ => [] | inr a => trace (k a) end.
Proof.
  destruct c as [t [e|a]]; unfold trace, outcome; simpl.
  - now rewrite app_nil_r.
  - now destruct (k a).
Qed.

Lemma outcome_bind {A B : Type} (c : M A) (k : A -> M B) :
  outcome (bind c k) =
    match outcome c with inl e => inl e | inr a => outcome (k a) end.
Proof.
  destruct c as [t [e|a]]; unfold outcome; simpl; [reflexivity|].
  now destruct (k a).
Qed.

Lemma bind_value {A B : Type} (t : list event) (a : A) (k : A -> M B) :
  bind (t, inr a) k = (t ++ trace (k a), outcome (k a)).
Proof. unfold bind, trace, outcome. now destruct (k a). Qed.

Lemma iloc_some {A : Type} (df : list A) (i : Z) (r : A) :
  Pandas.iloc df i = Some r -> iloc df i = ret r.
Proof. unfold iloc. now intros ->. Qed.

Lemma iloc_none {A : Type} (df : list A) (i : Z) :
  Pandas.iloc df i = None -> iloc df i = raise IndexError.
Proof. unfold iloc. now intros ->. Qed.

(** ** The header block *)

Section HeaderFacts.

Lemma header_single (data : list Row) :
  length data = 1%nat -> header data = ([], inl IndexError).
Proof.
  intros Hlen. unfold header.
  destruct (iloc_negative_some data 1) as [r Hr]; [lia|].
  change (-1) with (- (1)). rewrite (iloc_some _ _ _ Hr), bind_ret_l.
  change (-2) with (- (2)). rewrite (iloc_none data (- (2))).
  - reflexivity.
  - apply iloc_negative_none; lia.
Qed.

Lemma header_two (data : list Row) :
  (2 <= length data)%nat ->
  exists cur delta pct,
    header data = ([st_markdown_price cur delta pct], inr (cur, delta, pct)).
Proof.
  intros Hlen. unfold header.
  destruct (iloc_negative_some data 1) as [r Hr]; [lia|].
  destruct (iloc_negative_some data 2) as [r' Hr']; [lia|].
  change (-1) with (- (1)). rewrite (iloc_some _ _ _ Hr), bind_ret_l.
  change (-2) with (- (2)). rewrite (iloc_some _ _ _ Hr'), bind_ret_l.
  eexists _, _, _. reflexivity.
Qed.

End HeaderFacts.

(** C10. In the branch taken for a frame that is not empty, the header
    block reads [data.iloc[-2]]: on a frame of exactly one bar that index
    is out of bounds and the block ends with an IndexError; the block
    completes exactly when the frame has at least two bars. *)
Theorem header_needs_two_bars (data : list Row) :
  Pandas.empty data = false ->
  (outcome (header data) = inl IndexError <-> length data = 1%nat) /\
  ((exists v, outcome (header data) = inr v) <-> (2 <= length data)%nat).
Proof.
  intros Hne.
  assert (Hpos : (1 <= length data)%nat) by (destruct data; [discriminate | simpl; lia]).
  destruct (Nat.eq_dec (length data) 1) as [H1 | H1].
  - rewrite (header_single data H1). unfold outcome; simpl. split; split; intros H.
    + assumption.
    + reflexivity.
    + destruct H as [v Hv]. discriminate.
    + lia.
  - destruct (header_two data) as (cur & delta & pct & Hh); [lia|].
    rewrite Hh. unfold outcome; simpl. split; split; intros H.
    + discriminate.
    + contradiction.
    + lia.
    + eexists. reflexivity.
Qed.

(** ** The split of the backtest *)

Section SplitFacts.

Variables (df : list TimePoint) (forecast_days : nat).

Lemma train_len_bound : train_len df forecast_days <= Z.of_nat (length df).
Proof. unfold train_len. lia. Qed.

Lemma train_set_firstn :
  0 <= train_len df forecast_days ->
  train_set df forecast_days = firstn (length df - forecast_days) df.
Proof.
  intros H. unfold train_set, Pandas.iloc_until.
  rewrite slice_bound_split by (pose proof train_len_bound; lia).
  f_equal. unfold train_len in *. lia.
Qed.

Lemma test_set_skipn :
  0 <= train_len df forecast_days ->
  test_set df forecast_days = skipn (length df - forecast_days) df.
Proof.
  intros H. unfold test_set, Pandas.iloc_from.
  rewrite slice_bound_split by (pose proof train_len_bound; lia).
  f_equal. unfold train_len in *. lia.
Qed.

Lemma train_set_length :
  0 <= train_len df forecast_days ->
  Z.of_nat (length (train_set df forecast_days)) = train_len df forecast_days.
Proof.
  intros H. rewrite train_set_firstn by assumption.
  rewrite length_firstn. unfold train_len in *. lia.
Qed.

Lemma test_set_length :
  0 <= train_len df forecast_days ->
  length (test_set df forecast_days) = forecast_days.
Proof.
  intros H. rewrite test_set_skipn by assumption.
  rewrite length_skipn. unfold train_len in *. lia.
Qed.

Lemma train_test_app :
  train_set df forecast_days ++ test_set df forecast_days = df.
Proof. apply iloc_until_from. Qed.

End SplitFacts.

(** ** Dates *)

Lemma insert_date_length (d : Z) (l : list Z) :
  length (Pandas.insert_date d l) = S (length l).
Proof.
  induction l as [|x l IH]; simpl; [reflexivity|].
  destruct (d <=? x); simpl; congruence.
Qed.

Lemma sort_values_length (l : list Z) :
  length (Pandas.sort_values l) = length l.
Proof.
  induction l as [|x l IH]; simpl; [reflexivity|].
  unfold Pandas.sort_values in *. simpl.
  now rewrite insert_date_length, IH.
Qed.

Lemma unique_sorted_nonempty (l : list Z) :
  l <> [] -> Pandas.unique_sorted l <> [].
Proof.
  intros Hl Hs. apply (f_equal (@length Z)) in Hs.
  unfold Pandas.unique_sorted in Hs. rewrite sort_values_length in Hs.
  destruct l as [|x l]; [congruence|].
  assert (Hin : In x (nodup Z.eq_dec (x :: l))) by (apply nodup_In; now left).
  destruct (nodup Z.eq_dec (x :: l)); [contradiction | discriminate].
Qed.

Lemma max_date_some (l : list Z) :
  l <> [] -> exists d, Pandas.max_date l = Some d.
Proof. destruct l; [congruence | intros _; eexists; reflexivity]. Qed.

(** ** Calls into Prophet *)

Section ProphetFacts.

Variable fit_accepts : Hyper -> list TimePoint -> bool.
Variable yhat_of : Hyper -> list TimePoint -> Z -> float64.

Lemma Prophet_fit_accepted h df :
  fit_accepts h df = true ->
  Prophet_fit fit_accepts h df = ([prophet_fit h df], inr (mkFitted h df)).
Proof. intros H. unfold Prophet_fit. rewrite H. reflexivity. Qed.

Lemma Prophet_fit_refused h df :
  fit_accepts h df = false ->
  Prophet_fit fit_accepts h df = ([prophet_fit h df], inl ValueError).
Proof. intros H. unfold Prophet_fit. rewrite H. reflexivity. Qed.

Lemma make_future_dataframe_some m periods :
  history m <> [] ->
  exists last_date,
    Pandas.max_date (Pandas.unique_sorted (map tp_ds (history m))) = Some last_date /\
    make_future_dataframe m periods =
      ret (Pandas.unique_sorted (map tp_ds (history m))
             ++ map (fun k => last_date + Z.of_nat k) (seq 1 periods)).
Proof.
  intros Hh. unfold make_future_dataframe.
  destruct (max_date_some (Pandas.unique_sorted (map tp_ds (history m)))) as [d Hd].
  - apply unique_sorted_nonempty. destruct (history m); [congruence | discriminate].
  - exists d. now rewrite Hd.
Qed.

Lemma predict_some m future :
  future <> [] ->
  predict yhat_of m future =
    ([prophet_predict (params m) (history m) future],
     inr (map (fun d => mkPred d (yhat_of (params m) (history m) d))
              (Pandas.sort_values future))).
Proof. destruct future; [congruence | reflexivity]. Qed.

Lemma Prophet_fit_trace h df :
  trace (Prophet_fit fit_accepts h df) = [prophet_fit h df].
Proof. unfold Prophet_fit. now destruct (fit_accepts h df). Qed.

Lemma make_future_dataframe_trace m periods :
  trace (make_future_dataframe m periods) = [].
Proof.
  unfold make_future_dataframe.
  now destruct (Pandas.max_date _).
Qed.

Lemma predict_trace m future :
  trace (predict yhat_of m future) =
    [prophet_predict (params m) (history m) future].
Proof. now destruct future. Qed.

(** The join of tab 2 calls [fit] once, first, on the training rows. *)
Lemma backtest_combined_fits_train h forecast_days df :
  exists rest,
    trace (backtest_combined fit_accepts yhat_of h forecast_days df) =
      prophet_fit h (train_set df forecast_days) :: rest /\
    no_fit rest.
Proof.
  unfold backtest_combined.
  rewrite trace_bind, Prophet_fit_trace. cbn [app].
  eexists; split; [reflexivity|].
  destruct (outcome (Prophet_fit _ _ _)) as [e|m]; [reflexivity|].
  rewrite trace_bind, make_future_dataframe_trace. cbn [app].
  destruct (outcome (make_future_dataframe _ _)) as [e|future]; [reflexivity|].
  rewrite trace_bind, predict_trace.
  now destruct (outcome (predict _ _ _)).
Qed.

(** On training rows the estimator accepts, the join returns a frame. *)
Lemma backtest_combined_returns h forecast_days df :
  train_set df forecast_days <> [] ->
  fit_accepts h (train_set df forecast_days) = true ->
  exists future combined,
    backtest_combined fit_accepts yhat_of h forecast_days df =
      ([prophet_fit h (train_set df forecast_days);
        prophet_predict h (train_set df forecast_days) future],
       inr combined).
Proof.
  intros Hne Hfit. unfold backtest_combined.
  destruct (make_future_dataframe_some (mkFitted h (train_set df forecast_days)) forecast_days)
    as (d & Hd & Hfut); [assumption|].
  rewrite (Prophet_fit_accepted _ _ Hfit), bind_value, Hfut, bind_ret_l.
  match goal with |- context [predict _ _ ?f] => set (future := f) end.
  assert (Hf : future <> []).
  { subst future. intros E. apply app_eq_nil in E. destruct E as [E _].
    revert E. apply unique_sorted_nonempty. cbn [history].
    destruct (train_set df forecast_days); [congruence | discriminate]. }
  rewrite (predict_some _ _ Hf), bind_value.
  eexists _, _. reflexivity.
Qed.

End ProphetFacts.

(** ** Comparison of values *)

Lemma ltb_num (a b : Q) : (Num a <? Num b)%f64 = true <-> (a < b)%Q.
Proof.
  unfold F64.ltb. rewrite Qlt_alt.
  destruct (a ?= b)%Q; split; congruence.
Qed.

Lemma ltb_num_false (a b : Q) : (Num a <? Num b)%f64 = false <-> (b <= a)%Q.
Proof.
  rewrite <- not_true_iff_false, ltb_num. split; intros H.
  - now apply Qnot_lt_le.
  - now apply Qle_not_lt.
Qed.

(** ** The backtest tab *)

Section BacktestFacts.

Variable fit_accepts : Hyper -> list TimePoint -> bool.
Variable yhat_of : Hyper -> list TimePoint -> Z -> float64.

Lemma show_scores_outcome combined :
  outcome (show_scores combined) =
    inr (Report (mae_of combined) (mape_of combined)
                (accuracy_tier (mape_of combined))).
Proof. reflexivity. Qed.

Lemma show_scores_no_fit combined : no_fit (trace (show_scores combined)).
Proof.
  unfold show_scores, no_fit. cbn.
  now destruct (accuracy_tier (mape_of combined)).
Qed.

Lemma tab_backtest_short h forecast_days df :
  train_len df forecast_days < 30 ->
  tab_backtest fit_accepts yhat_of h forecast_days df =
    ([st_error not_enough_data], inr NotEnoughData).
Proof.
  intros H. unfold tab_backtest.
  replace (train_len df forecast_days <? 30) with true
    by (symmetry; now apply Z.ltb_lt).
  reflexivity.
Qed.

Lemma tab_backtest_long h forecast_days df :
  30 <= train_len df forecast_days ->
  tab_backtest fit_accepts yhat_of h forecast_days df =
    (combined <- backtest_combined fit_accepts yhat_of h forecast_days df ;;
     show_scores combined).
Proof.
  intros H. unfold tab_backtest.
  replace (train_len df forecast_days <? 30) with false
    by (symmetry; now apply Z.ltb_ge).
  reflexivity.
Qed.

Lemma train_set_nonempty forecast_days df :
  30 <= train_len df forecast_days -> train_set df forecast_days <> [].
Proof.
  intros H E. apply (f_equal (@length TimePoint)) in E.
  pose proof (train_set_length df forecast_days). simpl in E. lia.
Qed.

Lemma no_fit_filter (t : list event) : no_fit t -> filter is_fit t = [].
Proof.
  unfold no_fit. induction t as [|ev t IH]; simpl; [reflexivity|].
  intros H. apply andb_true_iff in H. destruct H as [Hev Ht].
  destruct (is_fit ev); [discriminate | auto].
Qed.

Lemma tab_backtest_fits h forecast_days df :
  filter is_fit (trace (tab_backtest fit_accepts yhat_of h forecast_days df)) =
    if train_len df forecast_days <? 30 then []
    else [prophet_fit h (train_set df forecast_days)].
Proof.
  destruct (train_len df forecast_days <? 30) eqn:E.
  - apply Z.ltb_lt in E. now rewrite tab_backtest_short.
  - apply Z.ltb_ge in E. rewrite tab_backtest_long by assumption.
    rewrite trace_bind.
    destruct (backtest_combined_fits_train fit_accepts yhat_of h forecast_days df)
      as (rest & -> & Hrest).
    rewrite filter_app.
    change (filter is_fit (prophet_fit h (train_set df forecast_days) :: rest))
      with (prophet_fit h (train_set df forecast_days) :: filter is_fit rest).
    rewrite (no_fit_filter _ Hrest).
    destruct (outcome _); [reflexivity|].
    now rewrite (no_fit_filter _ (show_scores_no_fit _)).
Qed.

End BacktestFacts.

(** C2. The backtest tab ends with its "not enough data" error exactly
    when the training rows (the length of the series minus the horizon)
    number fewer than 30, and then it shows that error and nothing else,
    without a call of [fit]; from 30 training rows on it calls [fit] on
    them first, and displays scores whenever the estimator accepts them. *)
Theorem backtest_guard_thirty
    (fit_accepts : Hyper -> list TimePoint -> bool)
    (yhat_of : Hyper -> list TimePoint -> Z -> float64)
    (h : Hyper) (forecast_days : nat) (df : list TimePoint) :
  (outcome (tab_backtest fit_accepts yhat_of h forecast_days df) = inr NotEnoughData
     <-> train_len df forecast_days < 30) /\
  (train_len df forecast_days < 30 ->
     trace (tab_backtest fit_accepts yhat_of h forecast_days df) =
       [st_error not_enough_data]) /\
  (30 <= train_len df forecast_days ->
     exists rest,
       trace (tab_backtest fit_accepts yhat_of h forecast_days df) =
         prophet_fit h (train_set df forecast_days) :: rest) /\
  (30 <= train_len df forecast_days ->
     fit_accepts h (train_set df forecast_days) = true ->
     exists mae mape tier,
       outcome (tab_backtest fit_accepts yhat_of h forecast_days df) =
         inr (Report mae mape tier)).
Proof.
  repeat split.
  - intros H. destruct (Z_lt_ge_dec (train_len df forecast_days) 30) as [Hlt|Hge];
      [assumption|].
    rewrite tab_backtest_long, outcome_bind in H by lia.
    destruct (outcome (backtest_combined _ _ _ _ _)); discriminate.
  - intros H. now rewrite tab_backtest_short.
  - intros H. now rewrite tab_backtest_short.
  - intros H. rewrite tab_backtest_long, trace_bind by assumption.
    destruct (backtest_combined_fits_train fit_accepts yhat_of h forecast_days df)
      as (rest & -> & _).
    eexists. reflexivity.
  - intros H Hfit. rewrite tab_backtest_long, outcome_bind by assumption.
    destruct (backtest_combined_returns fit_accepts yhat_of h forecast_days df)
      as (future & combined & ->); [now apply train_set_nonempty | assumption |].
    cbn [outcome snd]. rewrite show_scores_outcome. eexists _, _, _. reflexivity.
Qed.

(** C6. When the horizon does not exceed the length of the series, the
    split keeps the last [forecast_days] rows as the test rows and the
    rows before them as the training rows, the two in order make up the
    series, and the only call of [fit] in the tab is on the training rows. *)
Theorem backtest_split_holdout
    (fit_accepts : Hyper -> list TimePoint -> bool)
    (yhat_of : Hyper -> list TimePoint -> Z -> float64)
    (h : Hyper) (forecast_days : nat) (df : list TimePoint) :
  (forecast_days <= length df)%nat ->
  train_set df forecast_days = firstn (length df - forecast_days) df /\
  test_set df forecast_days = skipn (length df - forecast_days) df /\
  length (train_set df forecast_days) = (length df - forecast_days)%nat /\
  length (test_set df forecast_days) = forecast_days /\
  train_set df forecast_days ++ test_set df forecast_days = df /\
  filter is_fit (trace (tab_backtest fit_accepts yhat_of h forecast_days df)) =
    if train_len df forecast_days <? 30 then []
    else [prophet_fit h (train_set df forecast_days)].
Proof.
  intros Hle.
  assert (H0 : 0 <= train_len df forecast_days) by (unfold train_len; lia).
  repeat split.
  - now apply train_set_firstn.
  - now apply test_set_skipn.
  - pose proof (train_set_length df forecast_days H0). unfold train_len in *. lia.
  - now apply test_set_length.
  - apply train_test_app.
  - apply tab_backtest_fits.
Qed.

(** C7 (numbers). For a MAPE that is a number the tier is Excellent
    exactly below 5, Good exactly from 5 up to but not including 10, and
    Poor exactly from 10 on; the two thresholds are the constants of the
    branch.  An infinite MAPE is Poor when positive. *)
Theorem accuracy_tier_thresholds :
  (forall q : Q, accuracy_tier (Num q) = Excellent <-> (q < 5)%Q) /\
  (forall q : Q, accuracy_tier (Num q) = Good <-> (5 <= q /\ q < 10)%Q) /\
  (forall q : Q, accuracy_tier (Num q) = Poor <-> (10 <= q)%Q) /\
  accuracy_tier (Num 4.999) = Excellent /\
  accuracy_tier (Num 5.0) = Good /\
  accuracy_tier (Num 9.999) = Good /\
  accuracy_tier (Num 10.0) = Poor /\
  accuracy_tier PInf = Poor.
Proof.
  assert (H : forall q : Q,
             (accuracy_tier (Num q) = Excellent <-> (q < 5)%Q) /\
             (accuracy_tier (Num q) = Good <-> (5 <= q /\ q < 10)%Q) /\
             (accuracy_tier (Num q) = Poor <-> (10 <= q)%Q)).
  { intros q. unfold accuracy_tier.
    destruct (Num q <? Num 5)%f64 eqn:E5.
    - apply ltb_num in E5.
      repeat split; intros; try discriminate; try reflexivity; try assumption; lra.
    - apply ltb_num_false in E5.
      destruct (Num q <? Num 10)%f64 eqn:E10.
      + apply ltb_num in E10.
        repeat split; intros; try discriminate; try reflexivity; try assumption; lra.
      + apply ltb_num_false in E10.
        repeat split; intros; try discriminate; try reflexivity; try assumption; lra. }
  split; [intros q; apply H|].
  split; [intros q; apply H|].
  split; [intros q; apply H|].
  repeat split.
Qed.

(** ** Means of columns of numbers *)

Lemma filter_notnull_num (qs : list Q) :
  filter F64.notnull (map Num qs) = map Num qs.
Proof. induction qs as [|q qs IH]; simpl; congruence. Qed.

Lemma filter_isfinite_num (qs : list Q) :
  filter F64.isfinite (map Num qs) = map Num qs.
Proof. induction qs as [|q qs IH]; simpl; congruence. Qed.

Lemma sum_num (qs : list Q) : Pandas.sum (map Num qs) = Num (Qsum qs).
Proof.
  induction qs as [|q qs IH]; [reflexivity|].
  unfold Pandas.sum in *. simpl. now rewrite IH.
Qed.

Lemma of_nat_positive (n : nat) :
  (0 < n)%nat -> (inject_Z (Z.of_nat n) ?= 0)%Q = Gt.
Proof.
  intros H. apply Qgt_alt. change 0%Q with (inject_Z 0).
  rewrite <- Zlt_Qlt. lia.
Qed.

(** The mean of a column of numbers is their arithmetic mean. *)
Lemma mean_num (qs : list Q) :
  qs <> [] -> Pandas.mean (map Num qs) = Num (arithmetic_mean qs).
Proof.
  intros Hne. unfold Pandas.mean. rewrite filter_notnull_num.
  destruct qs as [|q qs]; [congruence|].
  rewrite sum_num, length_map. unfold F64.div, F64.of_nat.
  now rewrite of_nat_positive by (simpl; lia).
Qed.

(** ** Rolling windows *)

Lemma rolling_window_map {A B : Type} (f : A -> B) (w : nat) (s : list A) (i : nat) :
  Pandas.rolling_window w (map f s) i = map f (Pandas.rolling_window w s i).
Proof.
  unfold Pandas.rolling_window. now rewrite skipn_map, firstn_map.
Qed.

Lemma rolling_window_length {A : Type} (w : nat) (s : list A) (i : nat) :
  (i < length s)%nat ->
  length (Pandas.rolling_window w s i) = Nat.min w (S i).
Proof.
  intros Hi. unfold Pandas.rolling_window.
  rewrite length_firstn, length_skipn. lia.
Qed.

Lemma rolling_window_full {A : Type} (w : nat) (s : list A) (i : nat) :
  (w <= S i)%nat ->
  Pandas.rolling_window w s i = firstn w (skipn (i + 1 - w) s).
Proof.
  intros Hw. unfold Pandas.rolling_window.
  replace (S i) with (i + 1)%nat by lia.
  now rewrite Nat.min_l by lia.
Qed.

Lemma rolling_mean_length (w : nat) (s : list float64) :
  length (Pandas.rolling_mean w s) = length s.
Proof. unfold Pandas.rolling_mean. now rewrite length_map, length_seq. Qed.

Lemma rolling_mean_nth (w : nat) (s : list float64) (i : nat) :
  (i < length s)%nat ->
  nth_error (Pandas.rolling_mean w s) i =
    Some (let obs := filter F64.isfinite (Pandas.rolling_window w s i) in
          if (w <=? length obs)%nat then Pandas.mean obs else NaN).
Proof.
  intros Hi. unfold Pandas.rolling_mean.
  rewrite nth_error_map, nth_error_seq.
  replace (i <? length s)%nat with true by (symmetry; now apply Nat.ltb_lt).
  reflexivity.
Qed.

Lemma rolling_mean_num_full (w : nat) (close : list Q) (i : nat) :
  (1 <= w)%nat -> (w - 1 <= i < length close)%nat ->
  nth_error (Pandas.rolling_mean w (map Num close)) i =
    Some (Num (arithmetic_mean (firstn w (skipn (i + 1 - w) close)))).
Proof.
  intros Hw [Hlo Hhi].
  rewrite rolling_mean_nth by (now rewrite length_map).
  cbv zeta. rewrite rolling_window_map, filter_isfinite_num, length_map.
  rewrite rolling_window_length by assumption.
  rewrite Nat.min_l by lia. rewrite Nat.leb_refl.
  rewrite rolling_window_full by lia.
  rewrite mean_num; [reflexivity|].
  intros E. apply (f_equal (@length Q)) in E.
  rewrite length_firstn, length_skipn in E. simpl in E. lia.
Qed.

Lemma rolling_mean_num_short (w : nat) (close : list Q) (i : nat) :
  (i < w - 1)%nat -> (i < length close)%nat ->
  nth_error (Pandas.rolling_mean w (map Num close)) i = Some NaN.
Proof.
  intros Hlo Hhi.
  rewrite rolling_mean_nth by (now rewrite length_map).
  cbv zeta. rewrite rolling_window_map, filter_isfinite_num, length_map.
  rewrite rolling_window_length by assumption.
  replace (w <=? Nat.min w (S i))%nat with false
    by (symmetry; apply Nat.leb_gt; lia).
  reflexivity.
Qed.

Lemma nth_error_repeat_ext {A : Type} (l : list A) (a : A) :
  (forall i, (i < length l)%nat -> nth_error l i = Some a) ->
  l = repeat a (length l).
Proof.
  induction l as [|x l IH]; intros H; [reflexivity|].
  simpl. f_equal.
  - specialize (H 0%nat). simpl in H. assert (Some x = Some a) by (apply H; lia).
    congruence.
  - apply IH. intros i Hi. apply (H (S i)). simpl. lia.
Qed.

(** ** The moving-average columns of [load_data] *)

Lemma map_combine_fst {A B : Type} (l1 : list A) (l2 : list B) :
  length l1 = length l2 -> map fst (combine l1 l2) = l1.
Proof.
  revert l2. induction l1 as [|a l1 IH]; intros [|b l2] H; simpl in *;
    try discriminate; [reflexivity|].
  f_equal. apply IH. lia.
Qed.

Lemma map_combine_snd {A B : Type} (l1 : list A) (l2 : list B) :
  length l1 = length l2 -> map snd (combine l1 l2) = l2.
Proof.
  revert l2. induction l1 as [|a l1 IH]; intros [|b l2] H; simpl in *;
    try discriminate; [reflexivity|].
  f_equal. apply IH. lia.
Qed.

Section LoadData.

Variable bars : list Bar.

Lemma sma_lengths (w1 w2 : nat) :
  length bars =
    length (combine (Pandas.rolling_mean w1 (map Close bars))
                    (Pandas.rolling_mean w2 (map Close bars))) /\
  length (Pandas.rolling_mean w1 (map Close bars)) =
    length (Pandas.rolling_mean w2 (map Close bars)).
Proof.
  rewrite length_combine, !rolling_mean_length, length_map. lia.
Qed.

Lemma load_data_bars : map bar (load_data (Some bars)) = bars.
Proof.
  unfold load_data. rewrite map_map. cbn [bar].
  apply map_combine_fst, sma_lengths.
Qed.

Lemma load_data_SMA_50 :
  map SMA_50 (load_data (Some bars)) = Pandas.rolling_mean 50 (map Close bars).
Proof.
  unfold load_data. rewrite map_map. cbn [SMA_50].
  rewrite <- (map_map snd fst), map_combine_snd by apply sma_lengths.
  apply map_combine_fst, sma_lengths.
Qed.

Lemma load_data_SMA_200 :
  map SMA_200 (load_data (Some bars)) = Pandas.rolling_mean 200 (map Close bars).
Proof.
  unfold load_data. rewrite map_map. cbn [SMA_200].
  rewrite <- (map_map snd snd), map_combine_snd by apply sma_lengths.
  apply map_combine_snd, sma_lengths.
Qed.

Lemma load_data_length : length (load_data (Some bars)) = length bars.
Proof. rewrite <- load_data_bars at 2. now rewrite length_map. Qed.

Lemma df_train_of_load_data :
  df_train_of (load_data (Some bars)) =
    map (fun b => mkPoint (Date b) (Close b)) bars.
Proof.
  unfold df_train_of.
  rewrite <- (map_map bar (fun b => mkPoint (Date b) (Close b))).
  now rewrite load_data_bars.
Qed.

End LoadData.

(** C9. The two moving-average columns of [load_data] are the rolling
    means of the closes with windows 50 and 200.  For a window [w >= 1]
    and a series of real closes, the rolling mean has one value per row;
    at an index [i >= w-1] it is the arithmetic mean of the closes at
    indices [i-w+1 .. i]; at an index below [w-1] it is undefined (NaN);
    and when the window exceeds the length of the series every value is
    undefined. *)
Theorem rolling_mean_is_sma (w : nat) (close : list Q) :
  (1 <= w)%nat ->
  (forall bars : list Bar,
     map SMA_50 (load_data (Some bars)) = Pandas.rolling_mean 50 (map Close bars) /\
     map SMA_200 (load_data (Some bars)) = Pandas.rolling_mean 200 (map Close bars)) /\
  length (Pandas.rolling_mean w (map Num close)) = length close /\
  (forall i : nat,
     (w - 1 <= i < length close)%nat ->
     nth_error (Pandas.rolling_mean w (map Num close)) i =
       Some (Num (arithmetic_mean (firstn w (skipn (i + 1 - w) close))))) /\
  (forall i : nat,
     (i < w - 1)%nat -> (i < length close)%nat ->
     nth_error (Pandas.rolling_mean w (map Num close)) i = Some NaN) /\
  ((length close < w)%nat ->
     Pandas.rolling_mean w (map Num close) = repeat NaN (length close)).
Proof.
  intros Hw. split; [|split; [|split; [|split]]].
  - intros bars. split; [apply load_data_SMA_50 | apply load_data_SMA_200].
  - now rewrite rolling_mean_length, length_map.
  - intros i Hi. now apply rolling_mean_num_full.
  - intros i Hlo Hhi. now apply rolling_mean_num_short.
  - intros Hlen.
    rewrite <- (length_map Num close).
    rewrite <- (rolling_mean_length w (map Num close)).
    apply nth_error_repeat_ext. intros i Hi.
    rewrite rolling_mean_length, length_map in Hi.
    apply rolling_mean_num_short; lia.
Qed.

(** ** Scores of pairs of numbers *)

Lemma Qsum_nonneg (l : list Q) : Forall (fun q => 0 <= q)%Q l -> (0 <= Qsum l)%Q.
Proof.
  induction 1 as [|q l Hq _ IH]; simpl; [apply Qle_refl|].
  change 0%Q with (0 + 0)%Q at 1. now apply Qplus_le_compat.
Qed.

Lemma Qsum_ext (A : Type) (f g : A -> Q) (l : list A) :
  Forall (fun a => f a == g a)%Q l -> (Qsum (map f l) == Qsum (map g l))%Q.
Proof.
  induction 1 as [|a l Ha _ IH]; simpl; [reflexivity|].
  now rewrite Ha, IH.
Qed.

Lemma arithmetic_mean_nonneg (l : list Q) :
  Forall (fun q => 0 <= q)%Q l -> (0 <= arithmetic_mean l)%Q.
Proof.
  intros H. unfold arithmetic_mean.
  destruct l as [|q l].
  - simpl. unfold Qdiv. rewrite Qmult_0_l. apply Qle_refl.
  - apply Qle_shift_div_l.
    + change 0%Q with (inject_Z 0). rewrite <- Zlt_Qlt. simpl length. lia.
    + rewrite Qmult_0_l. now apply Qsum_nonneg.
Qed.

Lemma arithmetic_mean_ext (A : Type) (f g : A -> Q) (l : list A) :
  Forall (fun a => f a == g a)%Q l ->
  (arithmetic_mean (map f l) == arithmetic_mean (map g l))%Q.
Proof.
  intros H. unfold arithmetic_mean.
  now rewrite (Qsum_ext _ f g l H), !length_map.
Qed.

Lemma AbsError_real (pairs : list RealPair) :
  AbsError (map aligned_of pairs) = map Num (map absolute_error pairs).
Proof. unfold AbsError. rewrite !map_map. reflexivity. Qed.

Lemma combine_map_same {A B C : Type} (f : A -> B) (g : A -> C) (l : list A) :
  combine (map f l) (map g l) = map (fun a => (f a, g a)) l.
Proof. induction l as [|a l IH]; simpl; congruence. Qed.

Lemma percentage_terms (pairs : list RealPair) :
  series_div (AbsError (map aligned_of pairs)) (map cb_y (map aligned_of pairs)) =
    map percentage_term pairs.
Proof.
  unfold series_div, AbsError. rewrite !map_map.
  rewrite combine_map_same, map_map. reflexivity.
Qed.

Lemma percentage_term_nonzero (p : RealPair) :
  ~ (rp_y p == 0)%Q ->
  percentage_term p = Num (absolute_error p / rp_y p).
Proof.
  intros Hy. unfold percentage_term, F64.div.
  destruct (rp_y p ?= 0)%Q eqn:E; try reflexivity.
  apply Qeq_alt in E. contradiction.
Qed.

Lemma mae_real (pairs : list RealPair) :
  pairs <> [] ->
  mae_of (map aligned_of pairs) = Num (mean_absolute_error pairs).
Proof.
  intros Hne. unfold mae_of. rewrite AbsError_real.
  apply mean_num. destruct pairs; [congruence | discriminate].
Qed.

(** With no actual value equal to zero, the script's MAPE is the mean of
    [absolute_error / y], times 100. *)
Lemma mape_real (pairs : list RealPair) :
  pairs <> [] ->
  Forall (fun p => ~ (rp_y p == 0)%Q) pairs ->
  mape_of (map aligned_of pairs) = Num (mean_signed_percentage_error pairs).
Proof.
  intros Hne Hnz. unfold mape_of. rewrite percentage_terms.
  assert (E : map percentage_term pairs =
              map Num (map (fun p => absolute_error p / rp_y p)%Q pairs)).
  { rewrite map_map. apply map_ext_Forall.
    eapply Forall_impl; [|exact Hnz]. intros p. apply percentage_term_nonzero. }
  rewrite E, mean_num by (destruct pairs; [congruence | discriminate]).
  reflexivity.
Qed.

Lemma absolute_error_nonneg (p : RealPair) : (0 <= absolute_error p)%Q.
Proof. apply Qabs_nonneg. Qed.

(** Scores on positive actual values. For a set of aligned pairs of numbers
    that is not empty and whose actual values are all positive, the MAE
    the tab reports is the arithmetic mean of [|y - yhat|], the MAPE it
    reports is the arithmetic mean of [|y - yhat| / |y|] times 100, and
    neither is negative. *)
Theorem scores_are_means (pairs : list RealPair) :
  pairs <> [] ->
  Forall (fun p => 0 < rp_y p)%Q pairs ->
  exists mape tier,
    outcome (show_scores (map aligned_of pairs)) =
      inr (Report (Num (mean_absolute_error pairs)) mape tier) /\
    mape = mape_of (map aligned_of pairs) /\
    (mape == Num (mean_absolute_percentage_error pairs))%f64 /\
    (0 <= mean_absolute_error pairs)%Q /\
    (0 <= mean_absolute_percentage_error pairs)%Q.
Proof.
  intros Hne Hpos.
  exists (mape_of (map aligned_of pairs)),
         (accuracy_tier (mape_of (map aligned_of pairs))).
  split; [|split; [|split; [|split]]].
  - unfold outcome, show_scores. cbn. now rewrite mae_real.
  - reflexivity.
  - rewrite mape_real; [| assumption |].
    + cbn [F64.eqv]. unfold mean_signed_percentage_error, mean_absolute_percentage_error.
      apply Qmult_comp; [|reflexivity].
      apply arithmetic_mean_ext.
      eapply Forall_impl; [|exact Hpos]. intros p Hp. cbv beta.
      rewrite (Qabs_pos (rp_y p)) by now apply Qlt_le_weak. reflexivity.
    + eapply Forall_impl; [|exact Hpos]. intros p Hp Hz. cbv beta in Hp.
      rewrite Hz in Hp. now apply Qlt_irrefl in Hp.
  - apply arithmetic_mean_nonneg, Forall_map, Forall_forall.
    intros p _. apply absolute_error_nonneg.
  - unfold mean_absolute_percentage_error.
    apply Qmult_le_0_compat; [|discriminate].
    apply arithmetic_mean_nonneg, Forall_map.
    eapply Forall_impl; [|exact Hpos]. intros p Hp. cbv beta in *.
    apply Qle_shift_div_l.
    + rewrite Qabs_pos by now apply Qlt_le_weak. assumption.
    + rewrite Qmult_0_l. apply absolute_error_nonneg.
Qed.

(** ** Zero actual values *)

Lemma Qabs_zero (x : Q) : (Qabs x == 0)%Q -> (x == 0)%Q.
Proof.
  intros H. pose proof (Qle_Qabs x) as H1. pose proof (Qle_Qabs (- x)) as H2.
  rewrite Qabs_opp in H2. lra.
Qed.

Lemma absolute_error_zero_actual (p : RealPair) :
  (rp_y p == 0)%Q -> (absolute_error p == 0)%Q <-> (rp_yhat p == 0)%Q.
Proof.
  intros Hy. unfold absolute_error. split; intros H.
  - apply Qabs_zero in H. lra.
  - assert (E : (rp_y p - rp_yhat p == 0)%Q) by lra.
    rewrite E. reflexivity.
Qed.

(** A zero actual value against a prediction that is not zero: the
    quotient is plus infinity. *)
Lemma percentage_term_zero_actual (p : RealPair) :
  (rp_y p == 0)%Q -> ~ (rp_yhat p == 0)%Q -> percentage_term p = PInf.
Proof.
  intros Hy Hyh. unfold percentage_term, F64.div.
  replace (rp_y p ?= 0)%Q with Eq by (symmetry; now apply Qeq_alt).
  destruct (absolute_error p ?= 0)%Q eqn:E.
  - apply Qeq_alt in E. now apply absolute_error_zero_actual in E.
  - apply Qlt_alt in E. pose proof (absolute_error_nonneg p). lra.
  - reflexivity.
Qed.

(** Zero against zero: the quotient is NaN. *)
Lemma percentage_term_both_zero (p : RealPair) :
  both_zero p = true -> percentage_term p = NaN.
Proof.
  unfold both_zero. rewrite andb_true_iff, !Qeq_bool_iff. intros [Hy Hyh].
  unfold percentage_term, F64.div.
  replace (rp_y p ?= 0)%Q with Eq by (symmetry; now apply Qeq_alt).
  replace (absolute_error p ?= 0)%Q with Eq; [reflexivity|].
  symmetry. apply Qeq_alt. now apply absolute_error_zero_actual.
Qed.

Lemma percentage_term_other (p : RealPair) :
  both_zero p = false -> number_or_pinf (percentage_term p).
Proof.
  intros Hb.
  destruct (Qeq_dec (rp_y p) 0) as [Hy | Hy].
  - rewrite percentage_term_zero_actual; [exact I | assumption |].
    intros Hyh. unfold both_zero in Hb.
    apply Qeq_bool_iff in Hy, Hyh. rewrite Hy, Hyh in Hb. discriminate.
  - now rewrite percentage_term_nonzero.
Qed.

Lemma percentage_term_notnull (p : RealPair) :
  F64.notnull (percentage_term p) = negb (both_zero p).
Proof.
  destruct (both_zero p) eqn:Hb.
  - now rewrite percentage_term_both_zero.
  - pose proof (percentage_term_other p Hb) as H.
    destruct (percentage_term p); simpl in *; tauto.
Qed.

Lemma filter_notnull_terms (pairs : list RealPair) :
  filter F64.notnull (map percentage_term pairs) =
    map percentage_term (filter (fun p => negb (both_zero p)) pairs).
Proof.
  induction pairs as [|p pairs IH]; [reflexivity|].
  simpl. rewrite percentage_term_notnull.
  destruct (negb (both_zero p)); simpl; congruence.
Qed.

Lemma sum_number_or_pinf (l : list float64) :
  Forall number_or_pinf l -> number_or_pinf (Pandas.sum l).
Proof.
  induction 1 as [|x l Hx _ IH]; [exact I|].
  unfold Pandas.sum in *. simpl.
  destruct x, (fold_right F64.add (Num 0) l); simpl in *; tauto.
Qed.

Lemma sum_with_pinf (l : list float64) :
  Forall number_or_pinf l -> In PInf l -> Pandas.sum l = PInf.
Proof.
  induction 1 as [|x l Hx Hl IH]; intros Hin; [contradiction|].
  pose proof (sum_number_or_pinf l Hl) as Hs.
  unfold Pandas.sum in *. simpl. destruct Hin as [-> | Hin].
  - destruct (fold_right F64.add (Num 0) l); simpl in *; tauto.
  - rewrite (IH Hin). destruct x; simpl in *; tauto.
Qed.

(** The mean only reads the entries that are not NaN. *)
Lemma mean_skipna (s : list float64) :
  Pandas.mean s = Pandas.mean (filter F64.notnull s).
Proof.
  unfold Pandas.mean.
  assert (E : filter F64.notnull (filter F64.notnull s) = filter F64.notnull s).
  { induction s as [|x s IH]; [reflexivity|]. simpl.
    destruct (F64.notnull x) eqn:Hx; simpl; [rewrite Hx|]; congruence. }
  now rewrite E.
Qed.

Lemma mape_with_zero_actual (pairs : list RealPair) (p : RealPair) :
  In p pairs -> (rp_y p == 0)%Q -> ~ (rp_yhat p == 0)%Q ->
  mape_of (map aligned_of pairs) = PInf.
Proof.
  intros Hin Hy Hyh. unfold mape_of. rewrite percentage_terms.
  unfold Pandas.mean. rewrite filter_notnull_terms.
  set (kept := filter (fun p => negb (both_zero p)) pairs).
  assert (Hkept : In p kept).
  { apply filter_In. split; [assumption|].
    rewrite <- percentage_term_notnull, percentage_term_zero_actual by assumption.
    reflexivity. }
  assert (Hsum : Pandas.sum (map percentage_term kept) = PInf).
  { apply sum_with_pinf.
    - apply Forall_map, Forall_forall. intros r Hr.
      apply percentage_term_other. apply filter_In in Hr.
      now apply negb_true_iff.
    - rewrite <- (percentage_term_zero_actual p Hy Hyh). now apply in_map. }
  destruct (map percentage_term kept) as [|x l] eqn:E.
  - destruct kept; [contradiction | discriminate].
  - rewrite Hsum. unfold F64.div, F64.of_nat.
    rewrite of_nat_positive by (simpl; lia). reflexivity.
Qed.

(** C4 (what the script does). The scoring block never raises.  When an
    actual value is exactly zero and its prediction is not, the pair adds
    plus infinity and the MAPE is plus infinity, tier Poor; a pair whose
    actual and predicted values are both zero adds NaN, which the mean
    skips, so the MAPE is that of the other pairs. *)
Theorem mape_zero_actual_unguarded (pairs : list RealPair) :
  (forall combined : list Aligned,
     outcome (show_scores combined) =
       inr (Report (mae_of combined) (mape_of combined)
                   (accuracy_tier (mape_of combined)))) /\
  ((exists p, In p pairs /\ (rp_y p == 0)%Q /\ ~ (rp_yhat p == 0)%Q) ->
     mape_of (map aligned_of pairs) = PInf /\
     accuracy_tier (mape_of (map aligned_of pairs)) = Poor) /\
  mape_of (map aligned_of pairs) =
    mape_of (map aligned_of (filter (fun p => negb (both_zero p)) pairs)).
Proof.
  split; [|split].
  - intros combined. apply show_scores_outcome.
  - intros (p & Hin & Hy & Hyh).
    rewrite (mape_with_zero_actual pairs p Hin Hy Hyh). split; reflexivity.
  - unfold mape_of. rewrite !percentage_terms. f_equal.
    rewrite mean_skipna, filter_notnull_terms.
    rewrite (mean_skipna (map percentage_term (filter _ pairs))), filter_notnull_terms.
    assert (E : forall l : list RealPair,
               filter (fun p => negb (both_zero p)) (filter (fun p => negb (both_zero p)) l) =
                 filter (fun p => negb (both_zero p)) l).
    { induction l as [|p l IH]; [reflexivity|]. simpl.
      destruct (negb (both_zero p)) eqn:Hp; simpl; [rewrite Hp|]; congruence. }
    now rewrite E.
Qed.

(** ** The join of predictions and hidden rows *)

Lemma merge_In (test : list TimePoint) (pred : list Prediction) (r : Aligned) :
  In r (Pandas.merge test pred) <->
  exists l p, In l test /\ In p pred /\ fc_ds p = tp_ds l /\
              r = mkAligned (tp_ds l) (tp_y l) (fc_yhat p).
Proof.
  unfold Pandas.merge. rewrite in_flat_map. split.
  - intros (l & Hl & Hr). apply in_map_iff in Hr. destruct Hr as (p & <- & Hp).
    apply filter_In in Hp. destruct Hp as [Hp Hk]. apply Z.eqb_eq in Hk.
    now exists l, p.
  - intros (l & p & Hl & Hp & Hk & ->). exists l. split; [assumption|].
    apply in_map_iff. exists p. split; [reflexivity|].
    apply filter_In. split; [assumption | now apply Z.eqb_eq].
Qed.

Lemma scores_of_empty :
  mae_of [] = NaN /\ mape_of [] = NaN /\ accuracy_tier NaN = Poor.
Proof. repeat split. Qed.

Section JoinFacts.

Variable fit_accepts : Hyper -> list TimePoint -> bool.
Variable yhat_of : Hyper -> list TimePoint -> Z -> float64.

(** On training rows the estimator accepts, the frame the tab scores
    is the join of the hidden rows with the predictions of the model
    fitted on the training rows. *)
Lemma backtest_combined_joins h forecast_days df :
  train_set df forecast_days <> [] ->
  fit_accepts h (train_set df forecast_days) = true ->
  exists future,
    outcome (make_future_dataframe (mkFitted h (train_set df forecast_days))
               forecast_days) = inr future /\
    outcome (predict yhat_of (mkFitted h (train_set df forecast_days)) future) =
      inr (map (fun d => mkPred d (yhat_of h (train_set df forecast_days) d))
               (Pandas.sort_values future)) /\
    backtest_combined fit_accepts yhat_of h forecast_days df =
      ([prophet_fit h (train_set df forecast_days);
        prophet_predict h (train_set df forecast_days) future],
       inr (Pandas.merge (test_set df forecast_days)
              (map (fun d => mkPred d (yhat_of h (train_set df forecast_days) d))
                   (Pandas.sort_values future)))).
Proof.
  intros Hne Hfit.
  destruct (make_future_dataframe_some (mkFitted h (train_set df forecast_days))
              forecast_days) as (d & Hd & Hfut); [assumption|].
  match type of Hfut with _ = ret ?f => set (future := f) in * end.
  assert (Hf : future <> []).
  { subst future. intros E. apply app_eq_nil in E. destruct E as [E _].
    revert E. apply unique_sorted_nonempty. cbn [history].
    destruct (train_set df forecast_days); [congruence | discriminate]. }
  exists future. split; [now rewrite Hfut|]. split.
  - now rewrite (predict_some yhat_of _ _ Hf).
  - unfold backtest_combined.
    rewrite (Prophet_fit_accepted _ _ _ Hfit), bind_value, Hfut, bind_ret_l.
    rewrite (predict_some yhat_of _ _ Hf), bind_value. reflexivity.
Qed.

End JoinFacts.

(** C5 (what the script does). The join is an inner join on the date: a
    row with actual [y] and prediction [yhat] at date [t] is in the joined
    frame exactly when the left frame holds [y] at [t] and the right one
    [yhat] at [t].  From 30 training rows that the estimator accepts, the
    frame the backtest scores is that join of the hidden rows with the
    predictions of the model fitted on the training rows, and the scores
    the tab reports are the MAE, the MAPE and the tier of that frame.
    When the joined frame is empty the tab still reports scores: MAE and
    MAPE are NaN and the tier is Poor. *)
Theorem merge_is_inner_join
    (fit_accepts : Hyper -> list TimePoint -> bool)
    (yhat_of : Hyper -> list TimePoint -> Z -> float64)
    (h : Hyper) (forecast_days : nat) (df : list TimePoint) :
  (forall (test : list TimePoint) (pred : list Prediction) (t : Z) (y yhat : float64),
     In (mkAligned t y yhat) (Pandas.merge test pred) <->
     In (mkPoint t y) test /\ In (mkPred t yhat) pred) /\
  (30 <= train_len df forecast_days ->
   fit_accepts h (train_set df forecast_days) = true ->
   exists future forecast_bt,
     outcome (make_future_dataframe (mkFitted h (train_set df forecast_days))
                forecast_days) = inr future /\
     outcome (predict yhat_of (mkFitted h (train_set df forecast_days)) future) =
       inr forecast_bt /\
     outcome (backtest_combined fit_accepts yhat_of h forecast_days df) =
       inr (Pandas.merge (test_set df forecast_days) forecast_bt) /\
     outcome (tab_backtest fit_accepts yhat_of h forecast_days df) =
       inr (Report (mae_of (Pandas.merge (test_set df forecast_days) forecast_bt))
                   (mape_of (Pandas.merge (test_set df forecast_days) forecast_bt))
                   (accuracy_tier
                      (mape_of (Pandas.merge (test_set df forecast_days) forecast_bt)))) /\
     (forall (t : Z) (y yhat : float64),
        In (mkAligned t y yhat) (Pandas.merge (test_set df forecast_days) forecast_bt) <->
        In (mkPoint t y) (test_set df forecast_days) /\ In (mkPred t yhat) forecast_bt) /\
     (Pandas.merge (test_set df forecast_days) forecast_bt = [] ->
      outcome (tab_backtest fit_accepts yhat_of h forecast_days df) =
        inr (Report NaN NaN Poor))) /\
  (30 <= train_len df forecast_days ->
   outcome (backtest_combined fit_accepts yhat_of h forecast_days df) = inr [] ->
   outcome (tab_backtest fit_accepts yhat_of h forecast_days df) =
     inr (Report NaN NaN Poor)).
Proof.
  assert (Hjoin : forall (test : list TimePoint) (pred : list Prediction)
                         (t : Z) (y yhat : float64),
             In (mkAligned t y yhat) (Pandas.merge test pred) <->
             In (mkPoint t y) test /\ In (mkPred t yhat) pred).
  { intros test pred t y yhat. rewrite merge_In. split.
    - intros ([lt ly] & [pt py] & Hl & Hp & Hk & E). simpl in *.
      injection E as -> -> ->. subst pt. now split.
    - intros [Hl Hp]. now exists (mkPoint t y), (mkPred t yhat). }
  split; [exact Hjoin | split].
  - intros Hlen Hfit.
    destruct (backtest_combined_joins fit_accepts yhat_of h forecast_days df)
      as (future & Hfut & Hpred & Hrun);
      [now apply train_set_nonempty | assumption |].
    exists future. eexists. split; [exact Hfut|]. split; [exact Hpred|].
    assert (Htab : outcome (tab_backtest fit_accepts yhat_of h forecast_days df) =
                   outcome (show_scores
                              (Pandas.merge (test_set df forecast_days)
                                 (map (fun d => mkPred d
                                         (yhat_of h (train_set df forecast_days) d))
                                      (Pandas.sort_values future))))).
    { rewrite tab_backtest_long, outcome_bind, Hrun by assumption. reflexivity. }
    split; [now rewrite Hrun|]. split; [now rewrite Htab|].
    split; [intros t y yhat; apply Hjoin|].
    intros Hempty. rewrite Htab, Hempty. reflexivity.
  - intros Hlen Hempty.
    rewrite tab_backtest_long, outcome_bind, Hempty by assumption.
    reflexivity.
Qed.

(** ** Ascending dates *)

Lemma sorted_lt_NoDup (l : list Z) : StronglySorted Z.lt l -> NoDup l.
Proof.
  induction 1 as [|x l Hs IH Hx]; constructor; [|assumption].
  intros Hin. rewrite Forall_forall in Hx. specialize (Hx x Hin). lia.
Qed.

Lemma insert_date_head (d : Z) (l : list Z) :
  Forall (Z.lt d) l -> Pandas.insert_date d l = d :: l.
Proof.
  destruct l as [|x l]; [reflexivity|]. intros H. simpl.
  apply Forall_inv in H.
  now replace (d <=? x) with true by (symmetry; apply Z.leb_le; lia).
Qed.

Lemma sort_values_sorted (l : list Z) :
  StronglySorted Z.lt l -> Pandas.sort_values l = l.
Proof.
  induction 1 as [|x l Hs IH Hx]; [reflexivity|].
  unfold Pandas.sort_values in *. simpl. rewrite IH.
  now apply insert_date_head.
Qed.

Lemma unique_sorted_sorted (l : list Z) :
  StronglySorted Z.lt l -> Pandas.unique_sorted l = l.
Proof.
  intros H. unfold Pandas.unique_sorted.
  rewrite nodup_fixed_point by now apply sorted_lt_NoDup.
  now apply sort_values_sorted.
Qed.

Lemma fold_max_sorted (l : list Z) (x d : Z) :
  StronglySorted Z.lt (x :: l) -> fold_left Z.max l x = last (x :: l) d.
Proof.
  revert x. induction l as [|y l IH]; intros x Hs; [reflexivity|].
  apply StronglySorted_inv in Hs. destruct Hs as [Hs Hx].
  cbn [fold_left]. rewrite Z.max_r by (apply Forall_inv in Hx; lia).
  rewrite (IH y Hs). reflexivity.
Qed.

Lemma max_date_sorted (l : list Z) (d : Z) :
  l <> [] -> StronglySorted Z.lt l -> Pandas.max_date l = Some (last l d).
Proof.
  destruct l as [|x l]; [congruence|]. intros _ Hs.
  unfold Pandas.max_date. now rewrite (fold_max_sorted l x d).
Qed.

Lemma last_In (l : list Z) (d : Z) : l <> [] -> In (last l d) l.
Proof.
  induction l as [|x l IH]; [congruence|]. intros _.
  destruct l as [|y l]; [now left|].
  right. apply IH. discriminate.
Qed.

Lemma sorted_le_last (l : list Z) (d : Z) :
  StronglySorted Z.lt l -> Forall (fun x => x <= last l d) l.
Proof.
  induction 1 as [|x l Hs IH Hx]; constructor.
  - destruct l as [|y l]; [simpl; lia|].
    change (last (x :: y :: l) d) with (last (y :: l) d).
    rewrite Forall_forall in Hx.
    specialize (Hx _ (last_In (y :: l) d ltac:(discriminate))). lia.
  - destruct l as [|y l]; [constructor|].
    change (last (x :: y :: l) d) with (last (y :: l) d). assumption.
Qed.

Lemma next_days_sorted (last_date : Z) (start n : nat) :
  StronglySorted Z.lt (map (fun k => last_date + Z.of_nat k) (seq start n)).
Proof.
  revert start. induction n as [|n IH]; intros start; simpl; constructor.
  - apply IH.
  - apply Forall_map, Forall_forall. intros k Hk.
    apply in_seq in Hk. lia.
Qed.

Lemma sorted_app (l1 l2 : list Z) :
  StronglySorted Z.lt l1 -> StronglySorted Z.lt l2 ->
  (forall a b, In a l1 -> In b l2 -> a < b) ->
  StronglySorted Z.lt (l1 ++ l2).
Proof.
  induction 1 as [|x l Hs IH Hx]; intros H2 Hlt; [assumption|].
  simpl. constructor.
  - apply IH; [assumption|]. intros a b Ha Hb. apply Hlt; [now right | assumption].
  - apply Forall_app. split; [assumption|].
    apply Forall_forall. intros b Hb. apply Hlt; [now left | assumption].
Qed.

(** The dates [make_future_dataframe] returns for an ascending history
    are ascending. *)
Lemma future_dates_sorted (dates : list Z) (periods : nat) :
  StronglySorted Z.lt dates ->
  StronglySorted Z.lt
    (dates ++ map (fun k => last dates 0 + Z.of_nat k) (seq 1 periods)).
Proof.
  intros Hs. apply sorted_app; [assumption | apply next_days_sorted |].
  intros a b Ha Hb. apply in_map_iff in Hb. destruct Hb as (k & <- & Hk).
  apply in_seq in Hk.
  pose proof (sorted_le_last dates 0 Hs) as Hle.
  rewrite Forall_forall in Hle. specialize (Hle a Ha). lia.
Qed.

(** ** The forecast tab *)

Section ForecastFacts.

Variable fit_accepts : Hyper -> list TimePoint -> bool.
Variable yhat_of : Hyper -> list TimePoint -> Z -> float64.

Lemma tab_forecast_fits_first h forecast_days df current_price :
  exists rest,
    trace (tab_forecast fit_accepts yhat_of h forecast_days df current_price) =
      prophet_fit h df :: rest.
Proof.
  unfold tab_forecast. rewrite trace_bind, Prophet_fit_trace.
  eexists. reflexivity.
Qed.

Lemma tab_forecast_returns h forecast_days df current_price :
  df <> [] ->
  StronglySorted Z.lt (map tp_ds df) ->
  fit_accepts h df = true ->
  outcome (tab_forecast fit_accepts yhat_of h forecast_days df current_price) =
    inr (map (fun d => mkPred d (yhat_of h df d))
             (map tp_ds df
                ++ map (fun k => last (map tp_ds df) 0 + Z.of_nat k)
                       (seq 1 forecast_days))).
Proof.
  intros Hne Hs Hfit. unfold tab_forecast.
  rewrite (Prophet_fit_accepted _ _ _ Hfit), outcome_bind. cbn [outcome snd].
  unfold make_future_dataframe. cbn [history params].
  rewrite (unique_sorted_sorted _ Hs).
  assert (Hd : map tp_ds df <> []) by (destruct df; [congruence | discriminate]).
  rewrite (max_date_sorted _ 0 Hd Hs).
  rewrite bind_ret_l.
  set (future := map tp_ds df ++ _).
  assert (Hf : future <> []).
  { subst future. destruct df; [congruence | discriminate]. }
  rewrite (predict_some _ _ _ Hf), outcome_bind. cbn [outcome snd params history].
  rewrite sort_values_sorted by (subst future; now apply future_dates_sorted).
  rewrite outcome_bind_emit.
  set (forecast := map _ future).
  destruct (iloc_negative_some forecast 1) as [r Hr].
  { subst forecast. rewrite length_map. destruct future; [congruence | simpl; lia]. }
  change (-1) with (- (1)). rewrite (iloc_some _ _ _ Hr), bind_ret_l.
  rewrite outcome_bind_emit. reflexivity.
Qed.

End ForecastFacts.

(** C8. For a series with ascending, distinct dates that the estimator
    accepts, the forecast tab returns a frame with one row per row of
    the series followed by one row per day of the horizon; its dates are
    ascending, begin with the dates of the series and continue with the
    consecutive calendar days that start the day after the last of them. *)
Theorem forecast_covers_history_and_horizon
    (fit_accepts : Hyper -> list TimePoint -> bool)
    (yhat_of : Hyper -> list TimePoint -> Z -> float64)
    (h : Hyper) (forecast_days : nat) (df : list TimePoint)
    (current_price : float64) :
  (2 <= length df)%nat ->
  StronglySorted Z.lt (map tp_ds df) ->
  (1 <= forecast_days)%nat ->
  fit_accepts h df = true ->
  exists forecast,
    outcome (tab_forecast fit_accepts yhat_of h forecast_days df current_price) =
      inr forecast /\
    length forecast = (length df + forecast_days)%nat /\
    StronglySorted Z.lt (map fc_ds forecast) /\
    map fc_ds forecast =
      map tp_ds df
        ++ map (fun k => last (map tp_ds df) 0 + Z.of_nat k) (seq 1 forecast_days).
Proof.
  intros Hlen Hs _ Hfit.
  assert (Hne : df <> []) by (destruct df; [simpl in Hlen; lia | discriminate]).
  eexists. split; [now apply tab_forecast_returns|].
  assert (E : forall l : list Z,
             map fc_ds (map (fun d => mkPred d (yhat_of h df d)) l) = l).
  { intros l. rewrite map_map. cbn [fc_ds]. apply map_id. }
  rewrite E. split; [|split].
  - now rewrite !length_map, length_app, !length_map, length_seq.
  - now apply future_dates_sorted.
  - reflexivity.
Qed.

(** ** The main block *)

Section AppFacts.

Variable fit_accepts : Hyper -> list TimePoint -> bool.
Variable yhat_of : Hyper -> list TimePoint -> Z -> float64.

Lemma kpi_grid_completes (data : list Row) :
  data <> [] ->
  exists t, kpi_grid data = (t, inr tt) /\ no_fit t.
Proof.
  intros Hne.
  destruct (iloc_negative_some data 1) as [r Hr].
  { destruct data; [congruence | simpl; lia]. }
  unfold kpi_grid. change (-1) with (- (1)). rewrite (iloc_some _ _ _ Hr).
  eexists. split; reflexivity.
Qed.

Lemma app_empty fetched h forecast_days :
  load_data fetched = [] ->
  app fit_accepts yhat_of fetched h forecast_days =
    ([st_warning could_not_validate], inr tt).
Proof. intros E. unfold app. now rewrite E. Qed.

Lemma app_single (b : Bar) h forecast_days :
  app fit_accepts yhat_of (Some [b]) h forecast_days = ([], inl IndexError).
Proof. reflexivity. Qed.

Lemma app_reaches_fit (bars : list Bar) h forecast_days :
  (2 <= length bars)%nat ->
  exists before after,
    trace (app fit_accepts yhat_of (Some bars) h forecast_days) =
      before ++ prophet_fit h (df_train_of (load_data (Some bars))) :: after /\
    no_fit before.
Proof.
  intros Hlen. unfold app.
  pose proof (load_data_length bars) as Hdata.
  set (data := load_data (Some bars)) in *.
  assert (Hne : data <> []) by (destruct data; [simpl in Hdata; lia | discriminate]).
  replace (Pandas.empty data) with false by (destruct data; [congruence | reflexivity]).
  destruct (header_two data) as (cur & delta & pct & Hh); [lia|].
  destruct (kpi_grid_completes data Hne) as (tk & Hk & Hnf).
  rewrite Hh, bind_value, Hk, bind_value. cbn [trace fst].
  rewrite trace_bind.
  destruct (tab_forecast_fits_first fit_accepts yhat_of h forecast_days
              (df_train_of data) cur) as [rest ->].
  exists (st_markdown_price cur delta pct :: tk). eexists.
  split.
  - cbn [app]. reflexivity.
  - unfold no_fit in *. cbn. assumption.
Qed.

End AppFacts.

(** C3 (what the script does). An empty series ends the run with the
    warning alone, and a series of one bar ends it with an IndexError in
    the header, in both cases before any call of [fit].  A series of two
    or more bars reaches the call of [fit] on the whole series, whatever
    its close values are: the script itself checks none of them. *)
Theorem forecast_fit_is_unguarded
    (fit_accepts : Hyper -> list TimePoint -> bool)
    (yhat_of : Hyper -> list TimePoint -> Z -> float64)
    (h : Hyper) (forecast_days : nat) :
  (forall fetched : option (list Bar),
     load_data fetched = [] ->
     app fit_accepts yhat_of fetched h forecast_days =
       ([st_warning could_not_validate], inr tt)) /\
  (forall b : Bar,
     app fit_accepts yhat_of (Some [b]) h forecast_days = ([], inl IndexError)) /\
  (forall bars : list Bar,
     (2 <= length bars)%nat ->
     exists before after,
       trace (app fit_accepts yhat_of (Some bars) h forecast_days) =
         before ++ prophet_fit h (df_train_of (load_data (Some bars))) :: after /\
       no_fit before).
Proof.
  split; [|split].
  - intros fetched. apply app_empty.
  - intros b. apply app_single.
  - intros bars. apply app_reaches_fit.
Qed.

(** ** The script on sample series *)

(** Scores on two pairs with positive actual values: MAE 7.5 and MAPE 10. *)
Lemma scores_are_means_example :
  Stub.two_pairs <> [] /\
  Forall (fun p => 0 < rp_y p)%Q Stub.two_pairs /\
  (exists mape tier,
     outcome (show_scores (map aligned_of Stub.two_pairs)) =
       inr (Report (Num (mean_absolute_error Stub.two_pairs)) mape tier) /\
     mape = mape_of (map aligned_of Stub.two_pairs) /\
     (mape == Num (mean_absolute_percentage_error Stub.two_pairs))%f64 /\
     (0 <= mean_absolute_error Stub.two_pairs)%Q /\
     (0 <= mean_absolute_percentage_error Stub.two_pairs)%Q) /\
  (mean_absolute_error Stub.two_pairs == 7.5)%Q /\
  (mean_absolute_percentage_error Stub.two_pairs == 10)%Q.
Proof.
  assert (H1 : Stub.two_pairs <> []) by discriminate.
  assert (H2 : Forall (fun p => 0 < rp_y p)%Q Stub.two_pairs)
    by (repeat constructor).
  split; [exact H1|]. split; [exact H2|].
  split; [exact (scores_are_means Stub.two_pairs H1 H2)|].
  split; vm_compute; reflexivity.
Defined.

(** On a negative actual value the script divides by [y], so the MAPE
    of the pair (-2, -1) is -50 and not 50. *)
Lemma mape_negative_actual :
  Stub.negative_pair <> [] /\
  ~ (mape_of (map aligned_of Stub.negative_pair)
       == Num (mean_absolute_percentage_error Stub.negative_pair))%f64 /\
  (mape_of (map aligned_of Stub.negative_pair) <? Num 0)%f64 = true /\
  (mape_of (map aligned_of Stub.negative_pair) == Num (-50))%f64.
Proof.
  split; [discriminate|]. split; [|split].
  - vm_compute. discriminate.
  - vm_compute. reflexivity.
  - vm_compute. reflexivity.
Qed.

(** C1. The scoring block takes the absolute value of the error but
    divides by [y], not by [|y|].  On the pair with actual -2 and
    prediction -1 the tab reports MAE 1, a MAPE of -50 and the tier
    Excellent, where the arithmetic mean of [|y - yhat| / |y|] times 100
    is 50, which is not negative and would be tiered Poor. *)
Theorem negative_actual_reported_excellent :
  Stub.negative_pair <> [] /\
  (exists mape,
     outcome (show_scores (map aligned_of Stub.negative_pair)) =
       inr (Report (Num 1) mape Excellent) /\
     (mape == Num (-50))%f64 /\
     (mape <? Num 0)%f64 = true) /\
  (mean_absolute_error Stub.negative_pair == 1)%Q /\
  (mean_absolute_percentage_error Stub.negative_pair == 50)%Q /\
  accuracy_tier (Num (mean_absolute_percentage_error Stub.negative_pair)) = Poor.
Proof.
  split; [discriminate|]. split; [|split; [|split]].
  - eexists. split; [vm_compute; reflexivity|]. split; vm_compute; reflexivity.
  - vm_compute. reflexivity.
  - vm_compute. reflexivity.
  - vm_compute. reflexivity.
Qed.

(** C2, at the boundary: 29 training rows end in the error without a
    fit, 30 training rows are fitted and scored. *)
Lemma backtest_guard_thirty_boundary :
  (train_len Stub.days_59 30 = 29 /\
   outcome (tab_backtest Stub.fit_accepts Stub.yhat_of Stub.defaults 30 Stub.days_59)
     = inr NotEnoughData /\
   trace (tab_backtest Stub.fit_accepts Stub.yhat_of Stub.defaults 30 Stub.days_59)
     = [st_error not_enough_data]) /\
  (train_len Stub.days_60 30 = 30 /\
   (exists rest,
      trace (tab_backtest Stub.fit_accepts Stub.yhat_of Stub.defaults 30 Stub.days_60)
        = prophet_fit Stub.defaults (train_set Stub.days_60 30) :: rest) /\
   exists mae mape tier,
     outcome (tab_backtest Stub.fit_accepts Stub.yhat_of Stub.defaults 30 Stub.days_60)
       = inr (Report mae mape tier)).
Proof.
  destruct (backtest_guard_thirty Stub.fit_accepts Stub.yhat_of Stub.defaults 30 Stub.days_59)
    as (Herr & Htrace & _ & _).
  destruct (backtest_guard_thirty Stub.fit_accepts Stub.yhat_of Stub.defaults 30 Stub.days_60)
    as (_ & _ & Hfit & Hscore).
  split; [split; [|split] | split; [|split]].
  - vm_compute. reflexivity.
  - apply Herr. vm_compute. reflexivity.
  - apply Htrace. vm_compute. reflexivity.
  - vm_compute. reflexivity.
  - apply Hfit. vm_compute. discriminate.
  - apply Hscore; [vm_compute; discriminate | vm_compute; reflexivity].
Defined.

(** C3 fails on a series of two bars whose second close is NaN: the
    script calls [fit] on it. *)
Lemma nonfinite_close_reaches_fit :
  (exists b, In b Stub.nan_bars /\ F64.isfinite (Close b) = false) /\
  In (prophet_fit Stub.defaults (df_train_of (load_data (Some Stub.nan_bars))))
     (trace (app Stub.fit_accepts Stub.yhat_of (Some Stub.nan_bars) Stub.defaults 30)) /\
  ~ no_fit (trace (app Stub.fit_accepts Stub.yhat_of (Some Stub.nan_bars) Stub.defaults 30)).
Proof.
  split; [|split].
  - exists (Stub.flat_bar NaN 1). split; [right; left; reflexivity | reflexivity].
  - vm_compute. do 5 right. left. reflexivity.
  - vm_compute. discriminate.
Qed.

(** C3, on the sample series: the empty one, the one of one bar and the
    one of two bars. *)
Lemma forecast_fit_is_unguarded_example :
  app Stub.fit_accepts Stub.yhat_of (Some []) Stub.defaults 30
    = ([st_warning could_not_validate], inr tt) /\
  app Stub.fit_accepts Stub.yhat_of (Some Stub.one_bar) Stub.defaults 30
    = ([], inl IndexError) /\
  exists before after,
    trace (app Stub.fit_accepts Stub.yhat_of (Some Stub.nan_bars) Stub.defaults 30) =
      before ++ prophet_fit Stub.defaults (df_train_of (load_data (Some Stub.nan_bars)))
             :: after /\
    no_fit before.
Proof.
  destruct (forecast_fit_is_unguarded Stub.fit_accepts Stub.yhat_of Stub.defaults 30)
    as (Hempty & Hone & Htwo).
  split; [|split].
  - apply Hempty. reflexivity.
  - apply Hone.
  - apply Htwo. vm_compute. lia.
Defined.

(** C4 fails on a test row with a close of zero: the tab raises nothing
    and reports a MAPE of plus infinity, where the other 29 pairs alone
    have a MAPE of zero. *)
Lemma zero_actual_reported :
  In (mkPoint 30 (Num 0)) (test_set Stub.zero_day_series 30) /\
  (exists combined mae,
     outcome (backtest_combined Stub.fit_accepts Stub.yhat_of Stub.defaults 30
                Stub.zero_day_series) = inr combined /\
     outcome (tab_backtest Stub.fit_accepts Stub.yhat_of Stub.defaults 30
                Stub.zero_day_series) = inr (Report mae PInf Poor) /\
     (mape_of (filter (fun r => negb (Z.eqb (cb_ds r) 30)) combined) == Num 0)%f64).
Proof.
  split.
  - vm_compute. left. reflexivity.
  - eexists _, _. split; [vm_compute; reflexivity|]. split; vm_compute; reflexivity.
Qed.

(** C4, on two pairs the first of which has a zero actual value. *)
Lemma mape_zero_actual_example :
  mape_of (map aligned_of Stub.zero_pairs) = PInf /\
  accuracy_tier (mape_of (map aligned_of Stub.zero_pairs)) = Poor.
Proof.
  apply (proj1 (proj2 (mape_zero_actual_unguarded Stub.zero_pairs))).
  exists (mkReal 0 0 1). split; [left; reflexivity|].
  split; [reflexivity | discriminate].
Defined.

(** C5 fails on a series whose hidden rows lie beyond the predicted
    days: the joined frame is empty and the tab reports scores. *)
Lemma no_overlap_still_scored :
  outcome (backtest_combined Stub.fit_accepts Stub.yhat_of Stub.defaults 30 Stub.gap_series)
    = inr [] /\
  outcome (tab_backtest Stub.fit_accepts Stub.yhat_of Stub.defaults 30 Stub.gap_series)
    = inr (Report NaN NaN Poor).
Proof. split; vm_compute; reflexivity. Qed.

(** C5, on the series with the gap, whose join is empty, and on 60
    consecutive days, whose hidden rows are joined with the predictions. *)
Lemma merge_is_inner_join_example :
  (30 <= train_len Stub.gap_series 30 /\
   outcome (tab_backtest Stub.fit_accepts Stub.yhat_of Stub.defaults 30 Stub.gap_series)
     = inr (Report NaN NaN Poor)) /\
  (30 <= train_len Stub.days_60 30 /\
   Stub.fit_accepts Stub.defaults (train_set Stub.days_60 30) = true /\
   exists forecast_bt,
     outcome (backtest_combined Stub.fit_accepts Stub.yhat_of Stub.defaults 30
                Stub.days_60)
       = inr (Pandas.merge (test_set Stub.days_60 30) forecast_bt) /\
     outcome (tab_backtest Stub.fit_accepts Stub.yhat_of Stub.defaults 30 Stub.days_60)
       = inr (Report (mae_of (Pandas.merge (test_set Stub.days_60 30) forecast_bt))
                     (mape_of (Pandas.merge (test_set Stub.days_60 30) forecast_bt))
                     (accuracy_tier
                        (mape_of (Pandas.merge (test_set Stub.days_60 30) forecast_bt))))).
Proof.
  assert (Hgap : 30 <= train_len Stub.gap_series 30) by (vm_compute; discriminate).
  assert (Hlen : 30 <= train_len Stub.days_60 30) by (vm_compute; discriminate).
  assert (Hfit : Stub.fit_accepts Stub.defaults (train_set Stub.days_60 30) = true)
    by (vm_compute; reflexivity).
  split; [split; [exact Hgap|] | split; [exact Hlen | split; [exact Hfit|]]].
  - apply (proj2 (proj2 (merge_is_inner_join Stub.fit_accepts Stub.yhat_of Stub.defaults
                           30 Stub.gap_series))); [exact Hgap|].
    vm_compute. reflexivity.
  - destruct (proj1 (proj2 (merge_is_inner_join Stub.fit_accepts Stub.yhat_of
                              Stub.defaults 30 Stub.days_60)) Hlen Hfit)
      as (future & forecast_bt & _ & _ & Hcombined & Hreport & _).
    exists forecast_bt. split; [exact Hcombined | exact Hreport].
Defined.

(** C6, on 60 days with a horizon of 30. *)
Lemma backtest_split_holdout_example :
  (30 <= length Stub.days_60)%nat /\
  train_set Stub.days_60 30 = Stub.daily 0 30 (Num 100) /\
  test_set Stub.days_60 30 = Stub.daily 30 30 (Num 100) /\
  filter is_fit
    (trace (tab_backtest Stub.fit_accepts Stub.yhat_of Stub.defaults 30 Stub.days_60))
    = [prophet_fit Stub.defaults (Stub.daily 0 30 (Num 100))].
Proof.
  assert (Hle : (30 <= length Stub.days_60)%nat) by (vm_compute; lia).
  destruct (backtest_split_holdout Stub.fit_accepts Stub.yhat_of Stub.defaults 30
              Stub.days_60 Hle) as (Htrain & Htest & _ & _ & _ & Hfit).
  split; [exact Hle|]. split; [|split].
  - rewrite Htrain. vm_compute. reflexivity.
  - rewrite Htest. vm_compute. reflexivity.
  - rewrite Hfit. vm_compute. reflexivity.
Defined.

(** C7 fails on a MAPE of NaN: on a series that resumes after the
    predicted days no hidden row is matched, the MAPE is NaN, and the
    tier is Poor although NaN is not at least 10. *)
Lemma nan_mape_is_poor :
  (exists mae,
     outcome (tab_backtest Stub.fit_accepts Stub.yhat_of Stub.defaults 30
                Stub.halted_series) = inr (Report mae NaN Poor)) /\
  accuracy_tier NaN = Poor /\
  F64.geb NaN (Num 10) = false.
Proof.
  split; [|split; reflexivity].
  eexists. vm_compute. reflexivity.
Qed.

(** C8, on five rows with a horizon of three days. *)
Lemma forecast_covers_example :
  exists forecast,
    outcome (tab_forecast Stub.fit_accepts Stub.yhat_of Stub.defaults 3
               Stub.five_days (Num 103)) = inr forecast /\
    length forecast = 8%nat /\
    map fc_ds forecast = [10; 11; 14; 15; 16; 17; 18; 19].
Proof.
  destruct (forecast_covers_history_and_horizon Stub.fit_accepts Stub.yhat_of
              Stub.defaults 3 Stub.five_days (Num 103))
    as (forecast & Hout & Hlen & _ & Hds).
  - vm_compute. lia.
  - vm_compute. repeat constructor.
  - lia.
  - reflexivity.
  - exists forecast. split; [exact Hout|]. split; [exact Hlen | exact Hds].
Defined.

(** C9, with a window of 3 over the closes 1, 2, 3, 4. *)
Lemma rolling_mean_example :
  (1 <= 3)%nat /\
  nth_error (Pandas.rolling_mean 3 (map Num [1; 2; 3; 4]%Q)) 3
    = Some (Num (arithmetic_mean [2; 3; 4]%Q)) /\
  nth_error (Pandas.rolling_mean 3 (map Num [1; 2; 3; 4]%Q)) 1 = Some NaN /\
  Pandas.rolling_mean 5 (map Num [1; 2; 3; 4]%Q) = [NaN; NaN; NaN; NaN].
Proof.
  assert (H3 : (1 <= 3)%nat) by lia.
  assert (H5 : (1 <= 5)%nat) by lia.
  destruct (rolling_mean_is_sma 3 [1; 2; 3; 4]%Q H3) as (_ & _ & Hfull & Hshort & _).
  destruct (rolling_mean_is_sma 5 [1; 2; 3; 4]%Q H5) as (_ & _ & _ & _ & Hall).
  split; [exact H3|]. split; [|split].
  - apply (Hfull 3%nat). simpl. lia.
  - apply (Hshort 1%nat); simpl; lia.
  - apply Hall. simpl. lia.
Defined.

(** C10, on a frame of one bar. *)
Lemma header_one_bar :
  Pandas.empty (load_data (Some Stub.one_bar)) = false /\
  outcome (header (load_data (Some Stub.one_bar))) = inl IndexError.
Proof.
  assert (Hne : Pandas.empty (load_data (Some Stub.one_bar)) = false) by reflexivity.
  split; [exact Hne|].
  apply (proj1 (header_needs_two_bars _ Hne)). reflexivity.
Defined.

(** ** Whole runs of the forecast tab *)

Lemma nth_error_last {A : Type} (l : list A) (d : A) :
  l <> [] -> nth_error l (length l - 1) = Some (last l d).
Proof.
  induction l as [|x l IH]; [congruence|]. intros _.
  destruct l as [|y l]; [reflexivity|].
  change (last (x :: y :: l) d) with (last (y :: l) d).
  rewrite <- IH by discriminate. simpl. now rewrite Nat.sub_0_r.
Qed.

Lemma iloc_last {A : Type} (df : list A) (d : A) :
  df <> [] -> Pandas.iloc df (-1) = Some (last df d).
Proof.
  intros Hne. change (-1) with (- (1)). rewrite iloc_negative by lia.
  assert (Hlen : (1 <= length df)%nat) by (destruct df; [congruence | simpl; lia]).
  replace (1 <=? Z.of_nat (length df)) with true by (symmetry; apply Z.leb_le; lia).
  replace (Z.to_nat (Z.of_nat (length df) - 1)) with (length df - 1)%nat by lia.
  now apply nth_error_last.
Qed.

Lemma last_horizon_dates (df : list TimePoint) (forecast_days : nat) :
  df <> [] ->
  last (horizon_dates df forecast_days) 0 =
    last (map tp_ds df) 0 + Z.of_nat forecast_days.
Proof.
  intros Hne. unfold horizon_dates. destruct forecast_days as [|n].
  - simpl. rewrite app_nil_r. lia.
  - rewrite seq_S, map_app, app_assoc. cbn [map]. rewrite last_last.
    f_equal; lia.
Qed.

Section ForecastRun.

Variable fit_accepts : Hyper -> list TimePoint -> bool.
Variable yhat_of : Hyper -> list TimePoint -> Z -> float64.

Lemma make_future_dataframe_sorted h df forecast_days :
  df <> [] ->
  StronglySorted Z.lt (map tp_ds df) ->
  make_future_dataframe (mkFitted h df) forecast_days =
    ret (horizon_dates df forecast_days).
Proof.
  intros Hne Hs. unfold make_future_dataframe. cbn [history].
  rewrite (unique_sorted_sorted _ Hs).
  assert (Hd : map tp_ds df <> []) by (destruct df; [congruence | discriminate]).
  now rewrite (max_date_sorted _ 0 Hd Hs).
Qed.

Lemma horizon_dates_nonempty df forecast_days :
  df <> [] -> horizon_dates df forecast_days <> [].
Proof. destruct df; [congruence | discriminate]. Qed.

Lemma predict_sorted h df forecast_days :
  df <> [] ->
  StronglySorted Z.lt (map tp_ds df) ->
  predict yhat_of (mkFitted h df) (horizon_dates df forecast_days) =
    ([prophet_predict h df (horizon_dates df forecast_days)],
     inr (map (fun d => mkPred d (yhat_of h df d)) (horizon_dates df forecast_days))).
Proof.
  intros Hne Hs.
  rewrite predict_some by now apply horizon_dates_nonempty.
  cbn [params history].
  now rewrite sort_values_sorted by now apply future_dates_sorted.
Qed.

Lemma tab_forecast_run h forecast_days df current_price :
  df <> [] ->
  StronglySorted Z.lt (map tp_ds df) ->
  fit_accepts h df = true ->
  tab_forecast fit_accepts yhat_of h forecast_days df current_price =
    ([prophet_fit h df;
      prophet_predict h df (horizon_dates df forecast_days);
      st_plotly_chart "forecast";
      st_info (yhat_of h df (last (map tp_ds df) 0 + Z.of_nat forecast_days))
              (if (yhat_of h df (last (map tp_ds df) 0 + Z.of_nat forecast_days)
                     >? current_price)%f64
               then "Bullish"%string else "Bearish"%string)],
     inr (map (fun d => mkPred d (yhat_of h df d)) (horizon_dates df forecast_days))).
Proof.
  intros Hne Hs Hfit. unfold tab_forecast.
  rewrite (Prophet_fit_accepted _ _ _ Hfit), bind_value.
  rewrite (make_future_dataframe_sorted _ _ _ Hne Hs), bind_ret_l.
  rewrite (predict_sorted _ _ _ Hne Hs), bind_value.
  set (forecast := map _ (horizon_dates df forecast_days)).
  assert (Hlast : Pandas.iloc forecast (-1) =
                  Some (mkPred (last (map tp_ds df) 0 + Z.of_nat forecast_days)
                          (yhat_of h df (last (map tp_ds df) 0 + Z.of_nat forecast_days)))).
  { rewrite (iloc_last forecast (mkPred 0 (yhat_of h df 0))).
    - subst forecast.
      f_equal.
      change (mkPred 0 (yhat_of h df 0))
        with ((fun d => mkPred d (yhat_of h df d)) 0).
      rewrite <- (last_horizon_dates df forecast_days Hne).
      generalize (horizon_dates df forecast_days) as l.
      induction l as [|x l IH]; [reflexivity|].
      destruct l as [|y l]; [reflexivity|]. exact IH.
    - subst forecast. intros E. apply map_eq_nil in E.
      now apply (horizon_dates_nonempty df forecast_days). }
  rewrite (iloc_some _ _ _ Hlast). reflexivity.
Qed.

Lemma tab_forecast_refused h forecast_days df current_price :
  fit_accepts h df = false ->
  tab_forecast fit_accepts yhat_of h forecast_days df current_price =
    ([prophet_fit h df], inl ValueError).
Proof.
  intros Hfit. unfold tab_forecast.
  now rewrite (Prophet_fit_refused _ _ _ Hfit).
Qed.

Lemma tab_forecast_one_fit h forecast_days df current_price :
  filter is_fit
    (trace (tab_forecast fit_accepts yhat_of h forecast_days df current_price)) =
    [prophet_fit h df].
Proof.
  unfold tab_forecast.
  rewrite trace_bind, Prophet_fit_trace. cbn [app filter is_fit]. f_equal.
  destruct (outcome (Prophet_fit _ _ _)) as [e|m]; [reflexivity|].
  rewrite trace_bind, make_future_dataframe_trace. cbn [app].
  destruct (outcome (make_future_dataframe _ _)) as [e|future]; [reflexivity|].
  rewrite trace_bind, predict_trace. cbn [app filter is_fit].
  destruct (outcome (predict _ _ _)) as [e|forecast]; [reflexivity|].
  rewrite trace_bind. cbn [trace emit fst app filter is_fit outcome snd].
  rewrite trace_bind.
  unfold iloc. destruct (Pandas.iloc forecast (-1)); reflexivity.
Qed.

End ForecastRun.

(** The target price.  For a series with ascending, distinct dates that
    the estimator accepts, the forecast tab shows the chart and then one
    message: the prediction for the day [forecast_days] days after the
    last date of the series, labelled Bullish when it exceeds the current
    price and Bearish otherwise; between numbers that is exactly when the
    current price is below the prediction, and a prediction of NaN is
    Bearish. *)
Theorem forecast_target_price
    (fit_accepts : Hyper -> list TimePoint -> bool)
    (yhat_of : Hyper -> list TimePoint -> Z -> float64)
    (h : Hyper) (forecast_days : nat) (df : list TimePoint)
    (current_price : float64) :
  df <> [] ->
  StronglySorted Z.lt (map tp_ds df) ->
  fit_accepts h df = true ->
  exists pred_price trend,
    pred_price = yhat_of h df (last (map tp_ds df) 0 + Z.of_nat forecast_days) /\
    trace (tab_forecast fit_accepts yhat_of h forecast_days df current_price) =
      [prophet_fit h df;
       prophet_predict h df (horizon_dates df forecast_days);
       st_plotly_chart "forecast";
       st_info pred_price trend] /\
    (trend = "Bullish"%string \/ trend = "Bearish"%string) /\
    (forall p c : Q,
       pred_price = Num p -> current_price = Num c ->
       (trend = "Bullish"%string <-> (c < p)%Q)) /\
    (pred_price = NaN -> trend = "Bearish"%string).
Proof.
  intros Hne Hs Hfit. eexists _, _. split; [reflexivity|].
  rewrite (tab_forecast_run fit_accepts yhat_of h forecast_days df current_price Hne Hs Hfit).
  split; [reflexivity|].
  set (pred := yhat_of h df _). split; [|split].
  - destruct (pred >? current_price)%f64; [now left | now right].
  - intros p c -> ->. unfold F64.gtb.
    destruct (Num c <? Num p)%f64 eqn:E.
    + apply ltb_num in E. split; [now intros _ | reflexivity].
    + apply ltb_num_false in E. split; [discriminate|].
      intros Hlt. exfalso. now apply (Qlt_not_le _ _ Hlt).
  - intros ->. unfold F64.gtb. now destruct current_price.
Qed.

(** ** Whole runs of the script *)

Lemma kpi_grid_run (data : list Row) (r : Row) :
  Pandas.iloc data (-1) = Some r ->
  kpi_grid data =
    ([st_metric "Highest (Period)" (Pandas.max (map (fun r => High (bar r)) data));
      st_metric "Lowest (Period)" (Pandas.min (map (fun r => Low (bar r)) data));
      st_metric "Volume (24h)" (Num (inject_Z (Volume (bar r))));
      st_metric "50-Day SMA" (SMA_50 r)],
     inr tt).
Proof. intros Hr. unfold kpi_grid. rewrite (iloc_some _ _ _ Hr). reflexivity. Qed.

Lemma df_train_dates (bars : list Bar) :
  map tp_ds (df_train_of (load_data (Some bars))) = map Date bars.
Proof. rewrite df_train_of_load_data, map_map. reflexivity. Qed.

Lemma df_train_length (bars : list Bar) :
  length (df_train_of (load_data (Some bars))) = length bars.
Proof. unfold df_train_of. now rewrite length_map, load_data_length. Qed.

Section Runs.

Variable fit_accepts : Hyper -> list TimePoint -> bool.
Variable yhat_of : Hyper -> list TimePoint -> Z -> float64.

(** From two bars on, a run is the header, the four cards and then
    the three tabs. *)
Lemma app_two_bars (bars : list Bar) h forecast_days :
  (2 <= length bars)%nat ->
  exists cur delta pct hi lo vol sma,
    app fit_accepts yhat_of (Some bars) h forecast_days =
      ([st_markdown_price cur delta pct;
        st_metric "Highest (Period)" hi; st_metric "Lowest (Period)" lo;
        st_metric "Volume (24h)" vol; st_metric "50-Day SMA" sma]
         ++ trace
              (tab_forecast fit_accepts yhat_of h forecast_days
                 (df_train_of (load_data (Some bars))) cur ;;
               tab_backtest fit_accepts yhat_of h forecast_days
                 (df_train_of (load_data (Some bars))) ;;
               emit (st_plotly_chart "candlestick")),
       outcome
         (tab_forecast fit_accepts yhat_of h forecast_days
            (df_train_of (load_data (Some bars))) cur ;;
          tab_backtest fit_accepts yhat_of h forecast_days
            (df_train_of (load_data (Some bars))) ;;
          emit (st_plotly_chart "candlestick"))).
Proof.
  intros Hlen. unfold app.
  pose proof (load_data_length bars) as Hdata.
  set (data := load_data (Some bars)) in *.
  assert (Hne : data <> []) by (destruct data; [simpl in Hdata; lia | discriminate]).
  replace (Pandas.empty data) with false by (destruct data; [congruence | reflexivity]).
  destruct (header_two data) as (cur & delta & pct & Hh); [lia|].
  destruct (iloc_negative_some data 1) as [r Hr]; [lia|].
  rewrite Hh, bind_value, (kpi_grid_run data r Hr), bind_value.
  cbn [trace fst outcome snd app].
  eexists cur, delta, pct, _, _, _, _. reflexivity.
Qed.

Lemma trace_backtest_then_chart h forecast_days df :
  filter is_fit
    (trace (tab_backtest fit_accepts yhat_of h forecast_days df ;;
            emit (st_plotly_chart "candlestick"))) =
    if train_len df forecast_days <? 30 then []
    else [prophet_fit h (train_set df forecast_days)].
Proof.
  rewrite trace_bind, filter_app, tab_backtest_fits.
  destruct (outcome (tab_backtest _ _ _ _ _)); cbn [trace emit fst filter is_fit];
    now rewrite app_nil_r.
Qed.

End Runs.

(** The calls of [fit] in a run.  A run on fewer than two bars never
    calls [fit].  A run on two bars or more calls it on the whole series
    first and then at most once more, on the training rows of the
    backtest, which takes at least 30 of them; it is called on nothing
    else. *)
Theorem app_fits_at_most_twice
    (fit_accepts : Hyper -> list TimePoint -> bool)
    (yhat_of : Hyper -> list TimePoint -> Z -> float64)
    (fetched : option (list Bar)) (h : Hyper) (forecast_days : nat) :
  ((length (load_data fetched) < 2)%nat ->
     filter is_fit (trace (app fit_accepts yhat_of fetched h forecast_days)) = []) /\
  ((2 <= length (load_data fetched))%nat ->
     filter is_fit (trace (app fit_accepts yhat_of fetched h forecast_days)) =
       [prophet_fit h (df_train_of (load_data fetched))] \/
     (30 <= train_len (df_train_of (load_data fetched)) forecast_days /\
      filter is_fit (trace (app fit_accepts yhat_of fetched h forecast_days)) =
        [prophet_fit h (df_train_of (load_data fetched));
         prophet_fit h (train_set (df_train_of (load_data fetched)) forecast_days)])).
Proof.
  split.
  - intros Hlen. destruct fetched as [bars|]; [|reflexivity].
    rewrite load_data_length in Hlen.
    destruct bars as [|b [|b' bars]]; [reflexivity | reflexivity | simpl in Hlen; lia].
  - intros Hlen. destruct fetched as [bars|]; [|simpl in Hlen; lia].
    rewrite load_data_length in Hlen.
    destruct (app_two_bars fit_accepts yhat_of bars h forecast_days Hlen)
      as (cur & delta & pct & hi & lo & vol & sma & ->).
    cbn [trace fst]. rewrite filter_app. cbn [filter is_fit app].
    rewrite trace_bind, filter_app, tab_forecast_one_fit.
    destruct (outcome (tab_forecast _ _ _ _ _ _)) as [e|forecast].
    + left. reflexivity.
    + rewrite trace_backtest_then_chart.
      destruct (train_len _ forecast_days <? 30) eqn:E.
      * left. reflexivity.
      * right. apply Z.ltb_ge in E. split; [assumption | reflexivity].
Qed.

(** A short history stops the backtest only.  On two bars or more with
    ascending, distinct dates that the estimator accepts, but fewer than
    30 training rows, the run goes through: the header and the four
    cards, the forecast with its chart and target price, the "not enough
    data" error in place of the backtest, and the candlestick chart. *)
Theorem short_history_keeps_forecast
    (fit_accepts : Hyper -> list TimePoint -> bool)
    (yhat_of : Hyper -> list TimePoint -> Z -> float64)
    (bars : list Bar) (h : Hyper) (forecast_days : nat) :
  (2 <= length bars)%nat ->
  StronglySorted Z.lt (map Date bars) ->
  fit_accepts h (df_train_of (load_data (Some bars))) = true ->
  train_len (df_train_of (load_data (Some bars))) forecast_days < 30 ->
  exists cur delta pct hi lo vol sma pred trend,
    app fit_accepts yhat_of (Some bars) h forecast_days =
      ([st_markdown_price cur delta pct;
        st_metric "Highest (Period)" hi; st_metric "Lowest (Period)" lo;
        st_metric "Volume (24h)" vol; st_metric "50-Day SMA" sma;
        prophet_fit h (df_train_of (load_data (Some bars)));
        prophet_predict h (df_train_of (load_data (Some bars)))
          (horizon_dates (df_train_of (load_data (Some bars))) forecast_days);
        st_plotly_chart "forecast";
        st_info pred trend;
        st_error not_enough_data;
        st_plotly_chart "candlestick"],
       inr tt).
Proof.
  intros Hlen Hs Hfit Hshort.
  destruct (app_two_bars fit_accepts yhat_of bars h forecast_days Hlen)
    as (cur & delta & pct & hi & lo & vol & sma & ->).
  assert (Hne : df_train_of (load_data (Some bars)) <> []).
  { intros E. apply (f_equal (@length TimePoint)) in E.
    rewrite df_train_length in E. simpl in E. lia. }
  rewrite <- df_train_dates in Hs.
  rewrite (tab_forecast_run fit_accepts yhat_of h forecast_days _ cur Hne Hs Hfit).
  rewrite bind_value, (tab_backtest_short _ _ _ _ _ Hshort), bind_value.
  cbn [trace fst outcome snd emit app].
  eexists cur, delta, pct, hi, lo, vol, sma, _, _. reflexivity.
Qed.

(** A refused fit ends the run.  On two bars or more that the estimator
    refuses, the run ends with the estimator's error right after the call
    of [fit]: the header and the four cards are all that is shown, and
    neither the backtest nor the candlestick chart is reached. *)
Theorem refused_fit_ends_run
    (fit_accepts : Hyper -> list TimePoint -> bool)
    (yhat_of : Hyper -> list TimePoint -> Z -> float64)
    (bars : list Bar) (h : Hyper) (forecast_days : nat) :
  (2 <= length bars)%nat ->
  fit_accepts h (df_train_of (load_data (Some bars))) = false ->
  exists cur delta pct hi lo vol sma,
    app fit_accepts yhat_of (Some bars) h forecast_days =
      ([st_markdown_price cur delta pct;
        st_metric "Highest (Period)" hi; st_metric "Lowest (Period)" lo;
        st_metric "Volume (24h)" vol; st_metric "50-Day SMA" sma;
        prophet_fit h (df_train_of (load_data (Some bars)))],
       inl ValueError).
Proof.
  intros Hlen Hfit.
  destruct (app_two_bars fit_accepts yhat_of bars h forecast_days Hlen)
    as (cur & delta & pct & hi & lo & vol & sma & ->).
  rewrite (tab_forecast_refused fit_accepts yhat_of h forecast_days _ cur Hfit).
  eexists cur, delta, pct, hi, lo, vol, sma. reflexivity.
Qed.

(** The warning of the empty branch.  A run consists of the "could not
    validate ticker" warning alone exactly when the download failed or
    returned no bar. *)
Theorem warning_iff_no_data
    (fit_accepts : Hyper -> list TimePoint -> bool)
    (yhat_of : Hyper -> list TimePoint -> Z -> float64)
    (fetched : option (list Bar)) (h : Hyper) (forecast_days : nat) :
  app fit_accepts yhat_of fetched h forecast_days =
    ([st_warning could_not_validate], inr tt)
  <-> fetched = None \/ fetched = Some [].
Proof.
  split.
  - intros Happ. destruct fetched as [bars|]; [|now left].
    destruct bars as [|b [|b' bars]]; [now right | discriminate Happ |].
    destruct (app_two_bars fit_accepts yhat_of (b :: b' :: bars) h forecast_days)
      as (cur & delta & pct & hi & lo & vol & sma & E); [simpl; lia|].
    rewrite E in Happ. discriminate Happ.
  - intros [-> | ->]; reflexivity.
Qed.

(** ** The rows the backtest scores *)

Lemma sorted_app_inv (l1 l2 : list Z) :
  StronglySorted Z.lt (l1 ++ l2) ->
  StronglySorted Z.lt l1 /\ StronglySorted Z.lt l2 /\
  (forall a b, In a l1 -> In b l2 -> a < b).
Proof.
  induction l1 as [|x l1 IH]; simpl; intros Hs.
  - split; [constructor | split; [assumption | contradiction]].
  - apply StronglySorted_inv in Hs. destruct Hs as [Hs Hx].
    destruct (IH Hs) as (H1 & H2 & H12).
    apply Forall_app in Hx. destruct Hx as [Hx1 Hx2].
    split; [now constructor | split; [assumption|]].
    intros a b [<- | Ha] Hb.
    + rewrite Forall_forall in Hx2. now apply Hx2.
    + now apply H12.
Qed.

Lemma filter_all {A : Type} (f : A -> bool) (l : list A) :
  (forall x, In x l -> f x = true) -> filter f l = l.
Proof.
  induction l as [|x l IH]; intros H; [reflexivity|].
  simpl. rewrite (H x) by now left.
  f_equal. apply IH. intros y Hy. apply H. now right.
Qed.

Section DateFilters.

(** The predictions at a list of dates. *)
Variable yhat : Z -> float64.

Lemma filter_date_absent (d : Z) (dates : list Z) :
  ~ In d dates ->
  filter (fun r => fc_ds r =? d) (map (fun x => mkPred x (yhat x)) dates) = [].
Proof.
  induction dates as [|x dates IH]; intros Hd; [reflexivity|].
  simpl. replace (x =? d) with false.
  - apply IH. intros Hin. apply Hd. now right.
  - symmetry. apply Z.eqb_neq. intros ->. apply Hd. now left.
Qed.

Lemma filter_date_next_days (last_date d : Z) (start n : nat) :
  filter (fun r => fc_ds r =? d)
         (map (fun x => mkPred x (yhat x))
              (map (fun k => last_date + Z.of_nat k) (seq start n))) =
    if (last_date + Z.of_nat start <=? d) && (d <? last_date + Z.of_nat start + Z.of_nat n)
    then [mkPred d (yhat d)] else [].
Proof.
  revert start. induction n as [|n IH]; intros start.
  - simpl. destruct (last_date + Z.of_nat start <=? d) eqn:E1; [|reflexivity].
    replace (d <? last_date + Z.of_nat start + 0) with false; [reflexivity|].
    symmetry. apply Z.ltb_ge. apply Z.leb_le in E1. lia.
  - cbn [seq map filter fc_ds]. rewrite IH.
    destruct (last_date + Z.of_nat start =? d) eqn:E.
    + apply Z.eqb_eq in E. subst d.
      replace (last_date + Z.of_nat (S start) <=? last_date + Z.of_nat start)
        with false by (symmetry; apply Z.leb_gt; lia).
      replace (last_date + Z.of_nat start <=? last_date + Z.of_nat start)
        with true by (symmetry; apply Z.leb_le; lia).
      replace (last_date + Z.of_nat start <?
               last_date + Z.of_nat start + Z.of_nat (S n))
        with true by (symmetry; apply Z.ltb_lt; lia).
      reflexivity.
    + apply Z.eqb_neq in E.
      destruct ((last_date + Z.of_nat start <=? d)
                && (d <? last_date + Z.of_nat start + Z.of_nat (S n))) eqn:C.
      * apply andb_true_iff in C. destruct C as [C1 C2].
        apply Z.leb_le in C1. apply Z.ltb_lt in C2.
        replace (last_date + Z.of_nat (S start) <=? d)
          with true by (symmetry; apply Z.leb_le; lia).
        replace (d <? last_date + Z.of_nat (S start) + Z.of_nat n)
          with true by (symmetry; apply Z.ltb_lt; lia).
        reflexivity.
      * destruct ((last_date + Z.of_nat (S start) <=? d)
                  && (d <? last_date + Z.of_nat (S start) + Z.of_nat n)) eqn:C';
          [|reflexivity].
        apply andb_true_iff in C'. destruct C' as [C1 C2].
        apply Z.leb_le in C1. apply Z.ltb_lt in C2.
        apply andb_false_iff in C. destruct C as [C | C].
        -- apply Z.leb_gt in C. lia.
        -- apply Z.ltb_ge in C. lia.
Qed.

End DateFilters.

Section ScoredRows.

Variable fit_accepts : Hyper -> list TimePoint -> bool.
Variable yhat_of : Hyper -> list TimePoint -> Z -> float64.

Lemma backtest_combined_run h forecast_days df :
  train_set df forecast_days <> [] ->
  StronglySorted Z.lt (map tp_ds (train_set df forecast_days)) ->
  fit_accepts h (train_set df forecast_days) = true ->
  backtest_combined fit_accepts yhat_of h forecast_days df =
    ([prophet_fit h (train_set df forecast_days);
      prophet_predict h (train_set df forecast_days)
        (horizon_dates (train_set df forecast_days) forecast_days)],
     inr (Pandas.merge (test_set df forecast_days)
            (map (fun d => mkPred d (yhat_of h (train_set df forecast_days) d))
                 (horizon_dates (train_set df forecast_days) forecast_days)))).
Proof.
  intros Hne Hs Hfit. unfold backtest_combined.
  rewrite (Prophet_fit_accepted _ _ _ Hfit), bind_value.
  rewrite (make_future_dataframe_sorted _ _ _ Hne Hs), bind_ret_l.
  rewrite (predict_sorted _ _ _ _ Hne Hs), bind_value.
  reflexivity.
Qed.

(** Joined with the predictions of a model fitted on [train], the rows
    after the training rows are those within the horizon. *)
Lemma merge_within_horizon h forecast_days (train test : list TimePoint) :
  StronglySorted Z.lt (map tp_ds train) ->
  Forall (fun p => last (map tp_ds train) 0 < tp_ds p) test ->
  Pandas.merge test
    (map (fun d => mkPred d (yhat_of h train d)) (horizon_dates train forecast_days)) =
    map (fun p => mkAligned (tp_ds p) (tp_y p) (yhat_of h train (tp_ds p)))
        (filter (fun p => tp_ds p <=? last (map tp_ds train) 0 + Z.of_nat forecast_days)
                test).
Proof.
  intros Hs Hlate. unfold Pandas.merge.
  induction Hlate as [|p test Hp _ IH]; [reflexivity|].
  cbn [flat_map filter]. rewrite IH. clear IH.
  unfold horizon_dates. rewrite map_app, filter_app.
  rewrite filter_date_absent.
  - rewrite filter_date_next_days. cbn [app].
    replace (last (map tp_ds train) 0 + Z.of_nat 1 <=? tp_ds p)
      with true by (symmetry; apply Z.leb_le; lia).
    cbn [andb].
    destruct (tp_ds p <=? last (map tp_ds train) 0 + Z.of_nat forecast_days) eqn:E.
    + replace (tp_ds p <? last (map tp_ds train) 0 + Z.of_nat 1 + Z.of_nat forecast_days)
        with true by (symmetry; apply Z.ltb_lt; apply Z.leb_le in E; lia).
      reflexivity.
    + replace (tp_ds p <? last (map tp_ds train) 0 + Z.of_nat 1 + Z.of_nat forecast_days)
        with false by (symmetry; apply Z.ltb_ge; apply Z.leb_gt in E; lia).
      reflexivity.
  - intros Hin. pose proof (sorted_le_last _ 0 Hs) as Hle.
    rewrite Forall_forall in Hle. specialize (Hle _ Hin). lia.
Qed.

Lemma split_of_sorted forecast_days df :
  StronglySorted Z.lt (map tp_ds df) ->
  train_set df forecast_days <> [] ->
  StronglySorted Z.lt (map tp_ds (train_set df forecast_days)) /\
  Forall (fun p => last (map tp_ds (train_set df forecast_days)) 0 < tp_ds p)
         (test_set df forecast_days).
Proof.
  intros Hs Hne.
  rewrite <- (train_test_app df forecast_days), map_app in Hs.
  apply sorted_app_inv in Hs. destruct Hs as (H1 & _ & H12).
  split; [assumption|]. apply Forall_forall. intros p Hp.
  apply H12; [|now apply in_map].
  apply last_In. destruct (train_set df forecast_days); [congruence | discriminate].
Qed.

End ScoredRows.

(** Which hidden rows are scored.  For a series with ascending, distinct
    dates, at least 30 training rows and an estimator that accepts them,
    the joined frame holds exactly the hidden rows dated within
    [forecast_days] calendar days of the last training row, in order,
    each with the model's prediction for its date; hidden rows dated
    later are left out of the scores.  So at most [forecast_days] rows
    are scored, and all of them when no hidden row is dated later. *)
Theorem backtest_scores_rows_within_horizon
    (fit_accepts : Hyper -> list TimePoint -> bool)
    (yhat_of : Hyper -> list TimePoint -> Z -> float64)
    (h : Hyper) (forecast_days : nat) (df : list TimePoint) :
  StronglySorted Z.lt (map tp_ds df) ->
  30 <= train_len df forecast_days ->
  fit_accepts h (train_set df forecast_days) = true ->
  outcome (backtest_combined fit_accepts yhat_of h forecast_days df) =
    inr (scored_rows yhat_of h forecast_days df) /\
  (length (scored_rows yhat_of h forecast_days df) <= forecast_days)%nat /\
  ((forall p, In p (test_set df forecast_days) ->
      tp_ds p <= last (map tp_ds (train_set df forecast_days)) 0 + Z.of_nat forecast_days) ->
   map cb_ds (scored_rows yhat_of h forecast_days df) =
     map tp_ds (test_set df forecast_days) /\
   map cb_y (scored_rows yhat_of h forecast_days df) =
     map tp_y (test_set df forecast_days)).
Proof.
  intros Hs Hlen Hfit.
  assert (Hne : train_set df forecast_days <> []) by now apply train_set_nonempty.
  destruct (split_of_sorted forecast_days df Hs Hne) as [Htrain Hlate].
  split; [|split].
  - rewrite (backtest_combined_run fit_accepts yhat_of h forecast_days df Hne Htrain Hfit).
    cbn [outcome snd]. f_equal. now apply merge_within_horizon.
  - unfold scored_rows. cbv zeta. rewrite length_map.
    etransitivity; [apply filter_length_le|].
    rewrite test_set_length by lia. lia.
  - intros Hall. unfold scored_rows. cbv zeta.
    assert (E : filter
                  (fun p => tp_ds p <=?
                            last (map tp_ds (train_set df forecast_days)) 0
                              + Z.of_nat forecast_days)
                  (test_set df forecast_days) = test_set df forecast_days).
    { apply filter_all. intros p Hp. apply Z.leb_le. now apply Hall. }
    rewrite E, !map_map. split; reflexivity.
Qed.

(** The hidden values never reach the model.  Two series with the same
    training rows lead to the same calls into the estimator and fail
    alike; if their hidden rows also have the same dates, the joined
    frames have the same dates and the same predictions, whatever the
    hidden values are. *)
Theorem hidden_values_never_reach_model
    (fit_accepts : Hyper -> list TimePoint -> bool)
    (yhat_of : Hyper -> list TimePoint -> Z -> float64)
    (h : Hyper) (forecast_days : nat) (df1 df2 : list TimePoint) :
  train_set df1 forecast_days = train_set df2 forecast_days ->
  trace (backtest_combined fit_accepts yhat_of h forecast_days df1) =
    trace (backtest_combined fit_accepts yhat_of h forecast_days df2) /\
  (forall e,
     outcome (backtest_combined fit_accepts yhat_of h forecast_days df1) = inl e <->
     outcome (backtest_combined fit_accepts yhat_of h forecast_days df2) = inl e) /\
  (map tp_ds (test_set df1 forecast_days) = map tp_ds (test_set df2 forecast_days) ->
   forall c1 c2,
     outcome (backtest_combined fit_accepts yhat_of h forecast_days df1) = inr c1 ->
     outcome (backtest_combined fit_accepts yhat_of h forecast_days df2) = inr c2 ->
     map cb_ds c1 = map cb_ds c2 /\ map cb_yhat c1 = map cb_yhat c2).
Proof.
  intros Htrain.
  assert (Hmerge : forall (t1 t2 : list TimePoint) (pred : list Prediction),
             map tp_ds t1 = map tp_ds t2 ->
             map cb_ds (Pandas.merge t1 pred) = map cb_ds (Pandas.merge t2 pred) /\
             map cb_yhat (Pandas.merge t1 pred) = map cb_yhat (Pandas.merge t2 pred)).
  { intros t1. induction t1 as [|p t1 IH]; intros [|q t2] pred E;
      try discriminate; [split; reflexivity|].
    simpl in E. injection E as Ed Et.
    destruct (IH t2 pred Et) as [IH1 IH2].
    unfold Pandas.merge in *. cbn [flat_map]. rewrite !map_app, IH1, IH2, Ed, !map_map.
    split; reflexivity. }
  unfold backtest_combined. rewrite Htrain.
  rewrite !trace_bind, !outcome_bind.
  destruct (outcome (Prophet_fit fit_accepts h (train_set df2 forecast_days))) as [e|m].
  { split; [reflexivity | split; [reflexivity | discriminate]]. }
  rewrite !trace_bind, !outcome_bind.
  destruct (outcome (make_future_dataframe m forecast_days)) as [e|future].
  { split; [reflexivity | split; [reflexivity | discriminate]]. }
  rewrite !trace_bind, !outcome_bind.
  destruct (outcome (predict yhat_of m future)) as [e|forecast].
  { split; [reflexivity | split; [reflexivity | discriminate]]. }
  split; [reflexivity | split].
  - intros e. split; discriminate.
  - intros Hdates c1 c2 H1 H2. cbn in H1, H2.
    injection H1 as <-. injection H2 as <-. now apply Hmerge.
Qed.

(** ** Exact predictions *)

Lemma Qsum_zero (l : list Q) :
  Forall (fun q => 0 <= q)%Q l ->
  (Qsum l == 0)%Q <-> Forall (fun q => q == 0)%Q l.
Proof.
  induction 1 as [|q l Hq Hl IH]; simpl.
  - split; [constructor | reflexivity].
  - pose proof (Qsum_nonneg l Hl) as Hs. split.
    + intros E. constructor; [lra|]. apply IH. lra.
    + intros E. apply Forall_cons_iff in E. destruct E as [E1 E2].
      apply IH in E2. lra.
Qed.

Lemma arithmetic_mean_zero (l : list Q) :
  l <> [] -> Forall (fun q => 0 <= q)%Q l ->
  (arithmetic_mean l == 0)%Q <-> Forall (fun q => q == 0)%Q l.
Proof.
  intros Hne Hl. rewrite <- (Qsum_zero l Hl). unfold arithmetic_mean.
  assert (Hn : (0 < inject_Z (Z.of_nat (length l)))%Q).
  { change 0%Q with (inject_Z 0). rewrite <- Zlt_Qlt.
    destruct l; [congruence | simpl; lia]. }
  split; intros E.
  - assert (E' : (Qsum l == (Qsum l / inject_Z (Z.of_nat (length l)))
                           * inject_Z (Z.of_nat (length l)))%Q)
      by (field; lra).
    rewrite E' , E. ring.
  - rewrite E. field. lra.
Qed.

Lemma absolute_error_zero (p : RealPair) :
  (absolute_error p == 0)%Q <-> (rp_y p == rp_yhat p)%Q.
Proof.
  unfold absolute_error. split; intros H.
  - apply Qabs_zero in H. lra.
  - assert (E : (rp_y p - rp_yhat p == 0)%Q) by lra. rewrite E. reflexivity.
Qed.

Lemma accuracy_tier_below_five (q : Q) :
  (q < 5)%Q -> accuracy_tier (Num q) = Excellent.
Proof.
  intros H. unfold accuracy_tier.
  now replace (Num q <? Num 5)%f64 with true by (symmetry; now apply ltb_num).
Qed.

(** Exact predictions.  On a set of aligned pairs of numbers that is not
    empty, the MAE is zero exactly when every prediction equals its actual
    value; and when it does and no actual value is zero, the MAPE is zero
    as well and the tier is Excellent. *)
Theorem mae_zero_iff_exact (pairs : list RealPair) :
  pairs <> [] ->
  ((mae_of (map aligned_of pairs) == Num 0)%f64 <->
   Forall (fun p => rp_y p == rp_yhat p)%Q pairs) /\
  (Forall (fun p => rp_y p == rp_yhat p)%Q pairs ->
   Forall (fun p => ~ (rp_y p == 0)%Q) pairs ->
   (mape_of (map aligned_of pairs) == Num 0)%f64 /\
   accuracy_tier (mape_of (map aligned_of pairs)) = Excellent).
Proof.
  intros Hne.
  assert (Hmap : map absolute_error pairs <> [])
    by (destruct pairs; [congruence | discriminate]).
  assert (Hpos : Forall (fun q => 0 <= q)%Q (map absolute_error pairs)).
  { apply Forall_map, Forall_forall. intros p _. apply absolute_error_nonneg. }
  split.
  - rewrite (mae_real pairs Hne). cbn [F64.eqv]. unfold mean_absolute_error.
    rewrite (arithmetic_mean_zero _ Hmap Hpos), Forall_map.
    split; intros H; (eapply Forall_impl; [|exact H]); intros p Hp;
      now apply absolute_error_zero.
  - intros Hexact Hnz. rewrite (mape_real pairs Hne Hnz).
    assert (E : (mean_signed_percentage_error pairs == 0)%Q).
    { unfold mean_signed_percentage_error.
      rewrite (arithmetic_mean_ext _ _ (fun _ => 0%Q)).
      - assert (Z0 : (arithmetic_mean (map (fun _ : RealPair => 0%Q) pairs) == 0)%Q).
        { apply arithmetic_mean_zero.
          - destruct pairs; [congruence | discriminate].
          - apply Forall_map, Forall_forall. intros p _. apply Qle_refl.
          - apply Forall_map, Forall_forall. intros p _. reflexivity. }
        rewrite Z0. ring.
      - rewrite Forall_forall in Hexact, Hnz. apply Forall_forall. intros p Hp.
        cbv beta.
        rewrite (proj2 (absolute_error_zero p) (Hexact p Hp)).
        field. now apply Hnz. }
    split; [exact E|].
    apply accuracy_tier_below_five. rewrite E. reflexivity.
Qed.

(** ** The moving averages on short and incomplete series *)

Lemma filter_length_lt {A : Type} (f : A -> bool) (l : list A) (x : A) :
  In x l -> f x = false -> (length (filter f l) < length l)%nat.
Proof.
  induction l as [|a l IH]; intros Hin Hx; [contradiction|].
  simpl. destruct Hin as [-> | Hin].
  - rewrite Hx. pose proof (filter_length_le f l). lia.
  - specialize (IH Hin Hx). destruct (f a); simpl; lia.
Qed.

Lemma rolling_window_holds {A : Type} (w : nat) (s : list A) (i j : nat) (x : A) :
  (j <= i < j + w)%nat -> nth_error s j = Some x ->
  In x (Pandas.rolling_window w s i).
Proof.
  intros [Hlo Hhi] Hj. unfold Pandas.rolling_window.
  apply (nth_error_In _ (j - (S i - w))).
  rewrite nth_error_firstn.
  replace (j - (S i - w) <? Nat.min w (S i))%nat with true
    by (symmetry; apply Nat.ltb_lt; lia).
  rewrite nth_error_skipn. now replace (S i - w + (j - (S i - w)))%nat with j by lia.
Qed.

(** A missing value blanks the rolling mean on the rows its window
    reaches. *)
Lemma rolling_mean_missing (w : nat) (s : list float64) (i j : nat) :
  (j <= i < j + w)%nat -> (i < length s)%nat ->
  nth_error s j = Some NaN ->
  nth_error (Pandas.rolling_mean w s) i = Some NaN.
Proof.
  intros Hij Hi Hj. rewrite rolling_mean_nth by assumption. cbv zeta.
  pose proof (rolling_window_holds w s i j NaN Hij Hj) as Hin.
  pose proof (filter_length_lt F64.isfinite _ NaN Hin eq_refl) as Hlt.
  rewrite rolling_window_length in Hlt by assumption.
  replace (w <=? length (filter F64.isfinite (Pandas.rolling_window w s i)))%nat
    with false by (symmetry; apply Nat.leb_gt; lia).
  reflexivity.
Qed.

(** A missing close.  A close of NaN on row [j] leaves the 50-day average
    undefined on rows [j] to [j + 49] and the 200-day average undefined
    on rows [j] to [j + 199], as far as the frame goes. *)
Theorem missing_close_blanks_sma (bars : list Bar) (i j : nat) :
  nth_error (map Close bars) j = Some NaN ->
  (i < length bars)%nat ->
  ((j <= i < j + 50)%nat ->
     nth_error (map SMA_50 (load_data (Some bars))) i = Some NaN) /\
  ((j <= i < j + 200)%nat ->
     nth_error (map SMA_200 (load_data (Some bars))) i = Some NaN).
Proof.
  intros Hj Hi.
  rewrite load_data_SMA_50, load_data_SMA_200.
  split; intros Hij; apply (rolling_mean_missing _ _ i j);
    try assumption; now rewrite length_map.
Qed.

(** The 50-day card.  On a frame of bars with real closes that is not
    empty, the last of the four cards shows the 50-day average of the
    last row: undefined (NaN) while the frame has fewer than 50 bars, and
    from 50 bars on the arithmetic mean of the last 50 closes. *)
Theorem sma_card_needs_fifty_bars (bars : list Bar) (close : list Q) :
  bars <> [] ->
  map Close bars = map Num close ->
  exists hi lo vol,
    kpi_grid (load_data (Some bars)) =
      ([st_metric "Highest (Period)" hi; st_metric "Lowest (Period)" lo;
        st_metric "Volume (24h)" vol;
        st_metric "50-Day SMA"
          (if (length bars <? 50)%nat then NaN
           else Num (arithmetic_mean (skipn (length bars - 50) close)))],
       inr tt).
Proof.
  intros Hne Hclose.
  pose proof (load_data_length bars) as Hlen.
  assert (Hn : (1 <= length bars)%nat) by (destruct bars; [congruence | simpl; lia]).
  assert (Hc : length close = length bars).
  { apply (f_equal (@length float64)) in Hclose. now rewrite !length_map in Hclose. }
  destruct (iloc_negative_some (load_data (Some bars)) 1) as [r Hr]; [lia|].
  rewrite (kpi_grid_run _ r Hr).
  assert (Hnth : nth_error (load_data (Some bars)) (length bars - 1) = Some r).
  { change (-1) with (- (1)) in Hr. rewrite iloc_negative in Hr by lia.
    replace (1 <=? Z.of_nat (length (load_data (Some bars)))) with true in Hr
      by (symmetry; apply Z.leb_le; lia).
    rewrite <- Hr. f_equal. lia. }
  apply (map_nth_error SMA_50) in Hnth.
  rewrite load_data_SMA_50, Hclose in Hnth.
  destruct (length bars <? 50)%nat eqn:E.
  - apply Nat.ltb_lt in E.
    rewrite rolling_mean_num_short in Hnth by lia.
    injection Hnth as <-. eexists _, _, _. reflexivity.
  - apply Nat.ltb_ge in E.
    rewrite rolling_mean_num_full in Hnth by lia.
    replace (length bars - 1 + 1 - 50)%nat with (length bars - 50)%nat in Hnth by lia.
    rewrite firstn_all2 in Hnth by (rewrite length_skipn; lia).
    assert (Hv : SMA_50 r = Num (arithmetic_mean (skipn (length bars - 50) close)))
      by congruence.
    rewrite Hv. eexists _, _, _. reflexivity.
Qed.

(** ** The header on real closes *)

Lemma iloc_last_two {A : Type} (pre : list A) (a b : A) :
  Pandas.iloc (pre ++ [a; b]) (-1) = Some b /\
  Pandas.iloc (pre ++ [a; b]) (-2) = Some a.
Proof.
  split.
  - rewrite (iloc_last _ b) by (destruct pre; discriminate).
    change [a; b] with ([a] ++ [b]). now rewrite app_assoc, last_last.
  - change (-2) with (- (2)). rewrite iloc_negative by lia.
    rewrite length_app. cbn [length].
    replace (2 <=? Z.of_nat (length pre + 2)) with true
      by (symmetry; apply Z.leb_le; lia).
    replace (Z.to_nat (Z.of_nat (length pre + 2) - 2)) with (length pre + 0)%nat by lia.
    rewrite nth_error_app2 by lia.
    now replace (length pre + 0 - length pre)%nat with 0%nat by lia.
Qed.

(** The change under the price.  When the last two closes are the
    numbers [p] and then [c], the header shows the price [c] and the
    change [c - p], coloured green exactly when [c] is above [p] (an
    unchanged price is red).  The percentage is [(c - p) / p * 100] when
    [p] is not zero; when [p] is zero the block still completes and the
    percentage is an infinity or NaN. *)
Theorem header_change (pre : list Row) (prev last_row : Row) (p c : Q) :
  Close (bar prev) = Num p ->
  Close (bar last_row) = Num c ->
  exists pct,
    header (pre ++ [prev; last_row]) =
      ([st_markdown_price (Num c) (Num (c - p)) pct],
       inr (Num c, Num (c - p), pct)) /\
    (color_hex (Num (c - p)) = "#00FFA3"%string <-> (p < c)%Q) /\
    (~ (p == 0)%Q -> pct = Num ((c - p) / p * 100)) /\
    ((p == 0)%Q -> F64.isfinite pct = false).
Proof.
  intros Hp Hc.
  destruct (iloc_last_two pre prev last_row) as [Hlast Hprev].
  exists ((Num (c - p) / Num p) * Num 100)%f64.
  split; [|split; [|split]].
  - unfold header. rewrite (iloc_some _ _ _ Hlast), bind_ret_l.
    rewrite (iloc_some _ _ _ Hprev), bind_ret_l. rewrite Hp, Hc. reflexivity.
  - unfold color_hex, F64.gtb.
    destruct (Num 0 <? Num (c - p))%f64 eqn:E.
    + apply ltb_num in E. split; [intros _; lra | reflexivity].
    + apply ltb_num_false in E. split; [discriminate | intros H; lra].
  - intros Hnz. unfold F64.div.
    destruct (p ?= 0)%Q eqn:E; [apply Qeq_alt in E; contradiction | |]; reflexivity.
  - intros Hz. unfold F64.div.
    replace (p ?= 0)%Q with Eq by (symmetry; now apply Qeq_alt).
    destruct (c - p ?= 0)%Q; reflexivity.
Qed.

(** ** A run that completes *)

(** A complete run.  On a series with ascending, distinct dates and at
    least 30 training rows, when the estimator accepts both the whole
    series and the training rows, the run raises nothing and shows, in
    this order: the header and the four cards; the forecast tab (fit on
    the whole series, prediction, chart, target price); the backtest tab
    (fit on the training rows, prediction, MAE and MAPE of the hidden
    rows within the horizon, the tier message, chart); and the
    candlestick chart. *)
Theorem full_run_completes
    (fit_accepts : Hyper -> list TimePoint -> bool)
    (yhat_of : Hyper -> list TimePoint -> Z -> float64)
    (bars : list Bar) (h : Hyper) (forecast_days : nat) :
  StronglySorted Z.lt (map Date bars) ->
  30 <= train_len (df_train_of (load_data (Some bars))) forecast_days ->
  fit_accepts h (df_train_of (load_data (Some bars))) = true ->
  fit_accepts h (train_set (df_train_of (load_data (Some bars))) forecast_days) = true ->
  exists cur delta pct hi lo vol sma pred trend,
    app fit_accepts yhat_of (Some bars) h forecast_days =
      ([st_markdown_price cur delta pct;
        st_metric "Highest (Period)" hi; st_metric "Lowest (Period)" lo;
        st_metric "Volume (24h)" vol; st_metric "50-Day SMA" sma;
        prophet_fit h (df_train_of (load_data (Some bars)));
        prophet_predict h (df_train_of (load_data (Some bars)))
          (horizon_dates (df_train_of (load_data (Some bars))) forecast_days);
        st_plotly_chart "forecast";
        st_info pred trend;
        prophet_fit h (train_set (df_train_of (load_data (Some bars))) forecast_days);
        prophet_predict h (train_set (df_train_of (load_data (Some bars))) forecast_days)
          (horizon_dates (train_set (df_train_of (load_data (Some bars))) forecast_days)
             forecast_days);
        st_metric "MAE (Avg Error)"
          (mae_of (scored_rows yhat_of h forecast_days (df_train_of (load_data (Some bars)))));
        st_metric "MAPE (Error %)"
          (mape_of (scored_rows yhat_of h forecast_days (df_train_of (load_data (Some bars)))));
        tier_event
          (accuracy_tier
             (mape_of (scored_rows yhat_of h forecast_days
                         (df_train_of (load_data (Some bars))))));
        st_plotly_chart "backtest";
        st_plotly_chart "candlestick"],
       inr tt).
Proof.
  intros Hs Hlen Hfit Hfit_bt.
  set (df := df_train_of (load_data (Some bars))) in *.
  assert (Hbars : (2 <= length bars)%nat).
  { unfold train_len in Hlen. subst df. rewrite df_train_length in Hlen. lia. }
  assert (Hdf : StronglySorted Z.lt (map tp_ds df))
    by (subst df; now rewrite df_train_dates).
  assert (Hne : df <> []).
  { intros E. rewrite E in Hlen. unfold train_len in Hlen. simpl in Hlen. lia. }
  assert (Hne_bt : train_set df forecast_days <> []) by now apply train_set_nonempty.
  destruct (split_of_sorted forecast_days df Hdf Hne_bt) as [Htrain Hlate].
  destruct (app_two_bars fit_accepts yhat_of bars h forecast_days Hbars)
    as (cur & delta & pct & hi & lo & vol & sma & ->).
  fold df.
  rewrite (tab_forecast_run fit_accepts yhat_of h forecast_days df cur Hne Hdf Hfit).
  rewrite bind_value, (tab_backtest_long _ _ _ _ _ Hlen).
  rewrite (backtest_combined_run fit_accepts yhat_of h forecast_days df Hne_bt Htrain Hfit_bt).
  rewrite (merge_within_horizon yhat_of h forecast_days _ _ Htrain Hlate).
  fold (scored_rows yhat_of h forecast_days df).
  eexists cur, delta, pct, hi, lo, vol, sma, _, _. reflexivity.
Qed.

(** ** Whole runs on sample series *)

Lemma ascending_sorted (l : list Z) :
  ascending l = true -> StronglySorted Z.lt l.
Proof.
  intros H. apply Sorted_StronglySorted; [intros x y z; apply Z.lt_trans|].
  induction l as [|x l IH]; [constructor|].
  destruct l as [|y l]; [repeat constructor|].
  cbn [ascending] in H. apply andb_true_iff in H. destruct H as [Hxy Hl].
  constructor; [now apply IH|]. constructor. now apply Z.ltb_lt.
Qed.

(** The target price on five rows with a horizon of three days: the
    prediction for day 19. *)
Lemma forecast_target_price_example :
  exists trend,
    trace (tab_forecast Stub.fit_accepts Stub.yhat_of Stub.defaults 3
             Stub.five_days (Num 103)) =
      [prophet_fit Stub.defaults Stub.five_days;
       prophet_predict Stub.defaults Stub.five_days [10; 11; 14; 15; 16; 17; 18; 19];
       st_plotly_chart "forecast";
       st_info (Stub.yhat_of Stub.defaults Stub.five_days 19) trend].
Proof.
  destruct (forecast_target_price Stub.fit_accepts Stub.yhat_of Stub.defaults 3
              Stub.five_days (Num 103))
    as (pred & trend & -> & Htrace & _).
  - discriminate.
  - apply ascending_sorted. reflexivity.
  - reflexivity.
  - exists trend. exact Htrace.
Defined.

(** The calls of [fit] on one bar, on three bars and on sixty. *)
Lemma app_fits_example :
  filter is_fit
    (trace (app Stub.fit_accepts Stub.yhat_of (Some Stub.one_bar) Stub.defaults 30)) = [] /\
  filter is_fit
    (trace (app Stub.fit_accepts Stub.yhat_of (Some Samples.three_bars) Stub.defaults 30))
    = [prophet_fit Stub.defaults (df_train_of (load_data (Some Samples.three_bars)))] /\
  length
    (filter is_fit
       (trace (app Stub.fit_accepts Stub.yhat_of (Some Samples.sixty_bars) Stub.defaults 30)))
    = 2%nat.
Proof.
  split; [|split].
  - apply (proj1 (app_fits_at_most_twice Stub.fit_accepts Stub.yhat_of
                    (Some Stub.one_bar) Stub.defaults 30)).
    vm_compute. lia.
  - destruct (proj2 (app_fits_at_most_twice Stub.fit_accepts Stub.yhat_of
                       (Some Samples.three_bars) Stub.defaults 30))
      as [H | [Hlen _]].
    + vm_compute. lia.
    + exact H.
    + vm_compute in Hlen. exfalso. now apply Hlen.
  - vm_compute. reflexivity.
Defined.

(** Three bars with a horizon of 30: the forecast is shown, the backtest
    is refused, the run completes. *)
Lemma short_history_example :
  outcome (app Stub.fit_accepts Stub.yhat_of (Some Samples.three_bars) Stub.defaults 30)
    = inr tt /\
  In (st_error not_enough_data)
     (trace (app Stub.fit_accepts Stub.yhat_of (Some Samples.three_bars) Stub.defaults 30)) /\
  In (st_plotly_chart "forecast")
     (trace (app Stub.fit_accepts Stub.yhat_of (Some Samples.three_bars) Stub.defaults 30)).
Proof.
  destruct (short_history_keeps_forecast Stub.fit_accepts Stub.yhat_of
              Samples.three_bars Stub.defaults 30)
    as (cur & delta & pct & hi & lo & vol & sma & pred & trend & ->).
  - vm_compute. lia.
  - apply ascending_sorted. reflexivity.
  - reflexivity.
  - vm_compute. reflexivity.
  - split; [reflexivity|]. split; cbn [trace fst].
    + do 9 right. now left.
    + do 7 right. now left.
Defined.

(** Three bars and an estimator that refuses them. *)
Lemma refused_fit_example :
  outcome (app Samples.refuse_all Stub.yhat_of (Some Samples.three_bars) Stub.defaults 30)
    = inl ValueError /\
  length (trace (app Samples.refuse_all Stub.yhat_of (Some Samples.three_bars)
                   Stub.defaults 30)) = 6%nat.
Proof.
  destruct (refused_fit_ends_run Samples.refuse_all Stub.yhat_of
              Samples.three_bars Stub.defaults 30)
    as (cur & delta & pct & hi & lo & vol & sma & ->).
  - vm_compute. lia.
  - reflexivity.
  - split; reflexivity.
Defined.

(** Thirty days and then thirty trading days: the 22 hidden rows dated
    up to day 59 are scored, the 8 later ones are not. *)
Lemma backtest_scores_rows_example :
  outcome (backtest_combined Stub.fit_accepts Stub.yhat_of Stub.defaults 30
             Samples.market_series)
    = inr (scored_rows Stub.yhat_of Stub.defaults 30 Samples.market_series) /\
  length (test_set Samples.market_series 30) = 30%nat /\
  length (scored_rows Stub.yhat_of Stub.defaults 30 Samples.market_series) = 22%nat.
Proof.
  destruct (backtest_scores_rows_within_horizon Stub.fit_accepts Stub.yhat_of
              Stub.defaults 30 Samples.market_series) as (Hout & _ & _).
  - apply ascending_sorted. vm_compute. reflexivity.
  - vm_compute. discriminate.
  - vm_compute. reflexivity.
  - split; [exact Hout|]. split; vm_compute; reflexivity.
Defined.

(** Two series that differ in their hidden values only, and two that
    differ in the dates of their hidden rows as well. *)
Lemma hidden_values_example :
  (test_set Stub.days_60 30 <> test_set Samples.other_hidden 30 /\
   trace (backtest_combined Stub.fit_accepts Stub.yhat_of Stub.defaults 30 Stub.days_60) =
     trace (backtest_combined Stub.fit_accepts Stub.yhat_of Stub.defaults 30
              Samples.other_hidden) /\
   forall c1 c2,
     outcome (backtest_combined Stub.fit_accepts Stub.yhat_of Stub.defaults 30
                Stub.days_60) = inr c1 ->
     outcome (backtest_combined Stub.fit_accepts Stub.yhat_of Stub.defaults 30
                Samples.other_hidden) = inr c2 ->
     map cb_ds c1 = map cb_ds c2 /\ map cb_yhat c1 = map cb_yhat c2) /\
  (map tp_ds (test_set Stub.days_60 30) <> map tp_ds (test_set Samples.market_series 30) /\
   trace (backtest_combined Stub.fit_accepts Stub.yhat_of Stub.defaults 30 Stub.days_60) =
     trace (backtest_combined Stub.fit_accepts Stub.yhat_of Stub.defaults 30
              Samples.market_series)).
Proof.
  assert (Hother : train_set Stub.days_60 30 = train_set Samples.other_hidden 30)
    by (vm_compute; reflexivity).
  assert (Hmarket : train_set Stub.days_60 30 = train_set Samples.market_series 30)
    by (vm_compute; reflexivity).
  destruct (hidden_values_never_reach_model Stub.fit_accepts Stub.yhat_of Stub.defaults 30
              Stub.days_60 Samples.other_hidden Hother) as (Htrace & _ & Hsame).
  destruct (hidden_values_never_reach_model Stub.fit_accepts Stub.yhat_of Stub.defaults 30
              Stub.days_60 Samples.market_series Hmarket) as (Htrace' & _ & _).
  split; [split; [|split] | split].
  - vm_compute. discriminate.
  - exact Htrace.
  - apply Hsame. vm_compute. reflexivity.
  - vm_compute. discriminate.
  - exact Htrace'.
Defined.

(** Two exact predictions. *)
Lemma mae_zero_example :
  Forall (fun p => rp_y p == rp_yhat p)%Q Samples.exact_pairs /\
  (mae_of (map aligned_of Samples.exact_pairs) == Num 0)%f64 /\
  accuracy_tier (mape_of (map aligned_of Samples.exact_pairs)) = Excellent.
Proof.
  assert (Hne : Samples.exact_pairs <> []) by discriminate.
  assert (Hexact : Forall (fun p => rp_y p == rp_yhat p)%Q Samples.exact_pairs)
    by (repeat constructor).
  assert (Hnz : Forall (fun p => ~ (rp_y p == 0)%Q) Samples.exact_pairs)
    by (repeat constructor; discriminate).
  destruct (mae_zero_iff_exact Samples.exact_pairs Hne) as [Hmae Hmape].
  split; [exact Hexact|]. split.
  - now apply Hmae.
  - now apply Hmape.
Defined.

(** Two bars, the second without a close: both averages are undefined
    on its row. *)
Lemma missing_close_example :
  nth_error (map SMA_50 (load_data (Some Stub.nan_bars))) 1 = Some NaN /\
  nth_error (map SMA_200 (load_data (Some Stub.nan_bars))) 1 = Some NaN.
Proof.
  assert (Hj : nth_error (map Close Stub.nan_bars) 1 = Some NaN) by reflexivity.
  assert (Hi : (1 < length Stub.nan_bars)%nat) by (simpl; lia).
  destruct (missing_close_blanks_sma Stub.nan_bars 1 1 Hj Hi) as [H50 H200].
  split; [apply H50 | apply H200]; lia.
Defined.

(** The 50-day card on 52 bars closing at 1 to 52: the mean of 3 to 52. *)
Lemma sma_card_example :
  exists hi lo vol,
    kpi_grid (load_data (Some Samples.rising_bars)) =
      ([st_metric "Highest (Period)" hi; st_metric "Lowest (Period)" lo;
        st_metric "Volume (24h)" vol;
        st_metric "50-Day SMA"
          (Num (arithmetic_mean
                  (skipn 2 (map (fun k => inject_Z (Z.of_nat k)) (seq 1 52)))))],
       inr tt) /\
    (arithmetic_mean (skipn 2 (map (fun k => inject_Z (Z.of_nat k)) (seq 1 52))) == 27.5)%Q.
Proof.
  destruct (sma_card_needs_fifty_bars Samples.rising_bars
              (map (fun k => inject_Z (Z.of_nat k)) (seq 1 52)))
    as (hi & lo & vol & Hk).
  - discriminate.
  - reflexivity.
  - exists hi, lo, vol. split; [exact Hk|]. vm_compute. reflexivity.
Defined.

(** The header on closes of 102 and then 101: a change of -1, in red. *)
Lemma header_change_example :
  exists pct,
    header (load_data (Some Samples.three_bars)) =
      ([st_markdown_price (Num 101) (Num (101 - 102)) pct],
       inr (Num 101, Num (101 - 102), pct)) /\
    color_hex (Num (101 - 102)) = "#FF4B4B"%string.
Proof.
  destruct (header_change
              [mkRow (Stub.flat_bar (Num 100) 0) NaN NaN]
              (mkRow (Stub.flat_bar (Num 102) 1) NaN NaN)
              (mkRow (Stub.flat_bar (Num 101) 2) NaN NaN) 102 101 eq_refl eq_refl)
    as (pct & Hh & _).
  exists pct. split; [exact Hh | reflexivity].
Defined.

(** Sixty bars at 100 with a horizon of 30: the run completes and the
    backtest is Excellent. *)
Lemma full_run_example :
  outcome (app Stub.fit_accepts Stub.yhat_of (Some Samples.sixty_bars) Stub.defaults 30)
    = inr tt /\
  In (st_success "Excellent Accuracy")
     (trace (app Stub.fit_accepts Stub.yhat_of (Some Samples.sixty_bars) Stub.defaults 30)).
Proof.
  destruct (full_run_completes Stub.fit_accepts Stub.yhat_of Samples.sixty_bars
              Stub.defaults 30)
    as (cur & delta & pct & hi & lo & vol & sma & pred & trend & ->).
  - apply ascending_sorted. vm_compute. reflexivity.
  - vm_compute. discriminate.
  - vm_compute. reflexivity.
  - vm_compute. reflexivity.
  - split; [reflexivity|]. cbn [trace fst]. do 13 right. left. vm_compute. reflexivity.
Defined.
